(** * The investment ledger of [backend/index.js]

    A shallow embedding of the Express handlers of [backend/index.js] and of
    the part of the PostgreSQL store they talk to.

    Modelling conventions.
    - A JavaScript number is [NaN], an infinity or a finite double, the last
      given by its exact value in [Q].  The four operations round the exact
      result to the nearest double, ties to the even mantissa, and overflow
      to an infinity ([rounded], through the binary64 division of the
      Standard Library); comparisons are exact and false on [NaN].  Zero has
      no sign: the handler divides by 100 and by 12 only.
    - A field of a request body is absent, a finite number, or any other
      value; of the last the handler and the store observe three things, its
      truth value, the number it converts to, and what the store reads from
      the text the driver sends for it where an [INTEGER] is expected, and
      these three stand for the value.
    - A [DECIMAL(p, 2)] column holds [NaN] or an integer number of
      hundredths; the driver hands it over as text, and [parseFloat] or a
      coercion of that text is the double nearest to it.  An [INTEGER] column
      is a [Z].  No column of a row is [NULL]: the seed and the handler write
      none.
    - A number bound to a parameter travels as the shortest decimal that
      reads back as the same double ([shortest]), and the store reads that
      decimal.
    - The [assets] table is a finite map from the primary key [id] to the
      rest of the row.  The [dashboard] table is the list of its rows in scan
      order, so that [LIMIT 1] is the head of the list; an [UPDATE] writes the
      new version of a row behind the rows it leaves alone.
    - A query throws when the store refuses one of its values: a text that
      is no 32-bit integer at an [INTEGER] position, a difference that is
      none, an amount that does not fit its [DECIMAL] column, a key that is
      taken, [NULL] for a column that is [NOT NULL].  The statements of a
      connection that was obtained are answered; a pool that gives no
      connection is in [post_invest].
    - [invest] serves one request from its first statement to its last;
      [invest_around] and [invest_nested] serve requests that are in flight
      together, each on its own connection, the store at its default
      isolation level ([READ COMMITTED]). *)

From Stdlib Require Import ZArith QArith Qabs Qround String List Lia Lqa
  SpecFloat.
From stdpp Require Import base option list gmap fin_maps sorting.

Local Open Scope Z_scope.

(** ** Rows, tables and the database *)

(** A value of a [DECIMAL(p, 2)] column: the [NaN] of the type [numeric], or
    a number of hundredths. *)
Inductive decimal :=
| DecimalNaN
| Hundredths (z : Z).

Coercion Hundredths : Z >-> decimal.

(** [dashboard (id, wallet_balance, total_investment, monthly_yield)];
    the three amounts are [DECIMAL(15, 2)]. *)
Record dashboard_row := DashboardRow {
  d_id : Z;
  wallet_balance : decimal;
  total_investment : decimal;
  monthly_yield : decimal
}.

(** [assets (id, name, location, apy, price_per_token, tokens_available)]
    without the key; [apy] is [DECIMAL(5, 2)], [price_per_token] is
    [DECIMAL(15, 2)] and [tokens_available] is [INTEGER]. *)
Record asset_row := AssetRow {
  name : string;
  location : string;
  apy : decimal;
  price_per_token : decimal;
  tokens_available : Z
}.

(** The two relations, each with the next value of the sequence behind its
    [SERIAL] key. *)
Record database := Database {
  dashboard : list dashboard_row;
  dashboard_id_seq : Z;
  assets : gmap Z asset_row;
  assets_id_seq : Z
}.

(** ** JavaScript numbers *)

Inductive number :=
| NaN
| Infinity (negative : bool)
| Finite (q : Q).

(** [x < y] on rationals. *)
Definition Qlt_bool (x y : Q) : bool := negb (Qle_bool y x).

Definition two_pow (e : Z) : Q :=
  match e with
  | Zneg p => 1 # Pos.pow 2 p
  | _ => inject_Z (2 ^ e)
  end.

(** The value of a finite double [m * 2^e]. *)
Definition value (f : spec_float) : Q :=
  match f with
  | S754_finite s m e =>
      let q := (inject_Z (Z.pos m) * two_pow e)%Q in
      if s then Qopp q else q
  | _ => 0%Q
  end.

(** The double nearest to a rational, ties to the even mantissa: the quotient
    of numerator and denominator in binary64. *)
Definition to_double (x : Q) : spec_float :=
  match Qnum x with
  | Z0 => S754_zero false
  | Zpos p =>
      SFdiv 53 1024 (S754_finite false p 0) (S754_finite false (Qden x) 0)
  | Zneg p =>
      SFdiv 53 1024 (S754_finite true p 0) (S754_finite false (Qden x) 0)
  end.

(** The value of that double, when the rational does not overflow. *)
Definition round64 (x : Q) : Q := Qred (value (to_double x)).

(** The largest double is [2^1024 - 2^971]; from half a step above it on, a
    number rounds to an infinity. *)
Definition overflows (x : Q) : bool :=
  Qle_bool (inject_Z (2 ^ 1024 - 2 ^ 970)) (Qabs x).

(** The double nearest to a rational, or the infinity it overflows to. *)
Definition rounded (x : Q) : number :=
  if overflows x then Infinity (Qlt_bool x 0) else Finite (round64 x).

(** [- x], [x + y], [x - y], [x * y] and [x / y]. *)
Definition fneg (x : number) : number :=
  match x with
  | NaN => NaN
  | Infinity s => Infinity (negb s)
  | Finite q => Finite (- q)
  end.

Definition fadd (x y : number) : number :=
  match x, y with
  | NaN, _ | _, NaN => NaN
  | Infinity s, Infinity s' => if Bool.eqb s s' then Infinity s else NaN
  | Infinity s, Finite _ | Finite _, Infinity s => Infinity s
  | Finite a, Finite b => rounded (a + b)
  end.

Definition fsub (x y : number) : number := fadd x (fneg y).

Definition fmul (x y : number) : number :=
  match x, y with
  | NaN, _ | _, NaN => NaN
  | Infinity s, Infinity s' => Infinity (xorb s s')
  | Infinity s, Finite q | Finite q, Infinity s =>
      if Qeq_bool q 0 then NaN else Infinity (xorb s (Qlt_bool q 0))
  | Finite a, Finite b => rounded (a * b)
  end.

Definition fdiv (x y : number) : number :=
  match x, y with
  | NaN, _ | _, NaN => NaN
  | Infinity _, Infinity _ => NaN
  | Infinity s, Finite q => Infinity (xorb s (Qlt_bool q 0))
  | Finite _, Infinity _ => Finite 0
  | Finite a, Finite b =>
      if Qeq_bool b 0
      then if Qeq_bool a 0 then NaN else Infinity (Qlt_bool a 0)
      else rounded (a / b)
  end.

(** [x < y] and [x <= y]. *)
Definition flt (x y : number) : bool :=
  match x, y with
  | NaN, _ | _, NaN => false
  | Infinity s, Infinity s' => s && negb s'
  | Infinity s, Finite _ => s
  | Finite _, Infinity s' => negb s'
  | Finite a, Finite b => Qlt_bool a b
  end.

Definition fle (x y : number) : bool :=
  match x, y with
  | NaN, _ | _, NaN => false
  | Infinity s, Infinity s' => s || negb s'
  | Infinity s, Finite _ => s
  | Finite _, Infinity s' => negb s'
  | Finite a, Finite b => Qle_bool a b
  end.

(** A decimal literal of the source as a double. *)
Definition literal (q : Q) : Q := round64 q.

(** [parseFloat] of the text of a [DECIMAL(p, 2)] column, and what [*]
    makes of that text. *)
Definition parseFloat (v : decimal) : number :=
  match v with
  | DecimalNaN => NaN
  | Hundredths z => rounded (z # 100)
  end.

(** An [INTEGER] column as the driver hands it over: a number. *)
Definition of_integer (z : Z) : number := Finite (inject_Z z).

(** *** The text of a number

    [String(x)] has as few significant digits as read back as [x], and among
    those the digits nearest to [x]. *)

Definition pow10 (q : Z) : Q :=
  match q with
  | Zneg p => 1 # Pos.pow 10 p
  | _ => inject_Z (10 ^ q)
  end.

Fixpoint adjust_exponent (fuel : nat) (x : Q) (n : Z) : Z :=
  match fuel with
  | O => n
  | S fuel' =>
      if Qle_bool (pow10 n) x then adjust_exponent fuel' x (n + 1)
      else if Qle_bool (pow10 (n - 1)) x then n
      else adjust_exponent fuel' x (n - 1)
  end.

(** The [n] with [10^(n-1) <= x < 10^n], for a positive [x]. *)
Definition decimal_exponent (x : Q) : Z :=
  adjust_exponent 8 x
    ((Z.log2 (Qnum x) - Z.log2 (Z.pos (Qden x))) * 30103 / 100000 + 1).

(** Whether the decimal [v] is read as the double [m * 2^e]: it lies within
    half a gap of it, the ends counting for an even mantissa. *)
Definition reads_back (m : positive) (e : Z) (v : Q) : bool :=
  let x := value (S754_finite false m e) in
  let up := two_pow (e - 1) in
  let down := if (Z.pos m =? 2 ^ 52) && (- 1074 <? e) then two_pow (e - 2)
              else two_pow (e - 1) in
  if Z.even (Z.pos m)
  then Qle_bool (x - down) v && Qle_bool v (x + up)
  else Qlt_bool (x - down) v && Qlt_bool v (x + up).

(** With [k], [k + 1], ... significant digits: the multiples of [10^(n-k)]
    around [x]. *)
Fixpoint fewest_digits (fuel : nat) (k : Z) (m : positive) (e : Z) (x : Q)
    (n : Z) : Q :=
  match fuel with
  | O => x
  | S fuel' =>
      let q := n - k in
      let s := Qfloor (x / pow10 q) in
      let lo := (inject_Z s * pow10 q)%Q in
      let hi := (inject_Z (s + 1) * pow10 q)%Q in
      match reads_back m e lo, reads_back m e hi with
      | true, true =>
          match Qcompare (x - lo) (hi - x) with
          | Lt => lo
          | Gt => hi
          | Eq => if Z.even s then lo else hi
          end
      | true, false => lo
      | false, true => hi
      | false, false => fewest_digits fuel' (k + 1) m e x n
      end
  end.

(** The decimal that [String(x)] writes. *)
Definition shortest (x : Q) : Q :=
  match to_double x with
  | S754_finite s m e =>
      let y := value (S754_finite false m e) in
      let v := Qred (fewest_digits 17 1 m e y (decimal_exponent y)) in
      if s then Qopp v else v
  | _ => 0%Q
  end.

(** ** What the store does with the parameters of a query *)

Inductive store_error :=
| InvalidInteger    (* invalid input syntax / out of range for type integer *)
| NumericOverflow   (* numeric field overflow *)
| IntegerOutOfRange (* integer out of range, of a difference *)
| UniqueViolation   (* duplicate key value in a primary key *)
| NotNullViolation. (* null value in a column that is NOT NULL *)

(** The integers of the type [INTEGER]. *)
Definition int4 (z : Z) : bool := (- 2 ^ 31 <=? z) && (z <=? 2 ^ 31 - 1).

(** A finite number bound to an [INTEGER] position ([id = $1],
    [tokens_available - $1]) is sent as text and read back as a 32-bit
    integer; a fractional or out-of-range number is refused.  (The text of an
    integer below [1e21] is its digits; from there on it has an exponent and
    is out of range as well.) *)
Definition int4_in (q : Q) : option Z :=
  let r := Qred q in
  if (Qden r =? 1)%positive && (- 2 ^ 31 <=? Qnum r) && (Qnum r <=? 2 ^ 31 - 1)
  then Some (Qnum r) else None.

(** What the store reads at an [INTEGER] position from what the driver
    sends: [NULL], an integer, or a text it refuses. *)
Inductive reading :=
| Null
| Integer (k : Z)
| Unreadable.

Definition read_number (x : number) : reading :=
  match x with
  | Finite q => from_option Integer Unreadable (int4_in q)
  | _ => Unreadable
  end.

(** Rounding to the nearest integer, ties away from zero. *)
Definition round_half_away (q : Q) : Z :=
  if Qle_bool 0 q then Qfloor (q + (1 # 2)) else - Qfloor ((1 # 2) - q).

(** A decimal assigned to a [DECIMAL(p, 2)] column is rounded to two
    fractional digits, and must then fit in [p] digits. *)
Definition numeric_in (p : Z) (q : Q) : option decimal :=
  let c := round_half_away (q * 100) in
  if Z.abs c <? 10 ^ p then Some (Hundredths c) else None.

(** A number assigned to such a column arrives as its text.  [NaN] is a
    value of every such column, an infinity of none. *)
Definition numeric_2 (p : Z) (x : number) : option decimal :=
  match x with
  | NaN => Some DecimalNaN
  | Infinity _ => None
  | Finite q => numeric_in p (shortest q)
  end.

Definition numeric_15_2 : number -> option decimal := numeric_2 15.
Definition numeric_5_2 : number -> option decimal := numeric_2 5.

(** ** JavaScript values of the request body *)

(** A field of the JSON body after [const { assetId, tokensToBuy } = req.body]:
    - [undefined] when the key is absent;
    - a finite number, the double that [express.json()] read, by its value;
    - any other value, that is a string, a boolean, [null], an array, an
      object or a number beyond the doubles, by what [!v] makes of it, what
      the comparisons and the product convert it to, and what the store reads
      from the driver's text for it where it expects an integer.  The string
      ['10'] is [Value true (Finite 10) (Integer 10)], [true] is
      [Value true (Finite 1) Unreadable], [null] is
      [Value false (Finite 0) Null], ['abc'] is [Value true NaN Unreadable]. *)
Inductive field :=
| Absent
| Number (q : Q)
| Value (truthy : bool) (converted : number) (read : reading).

Record request := Request {
  assetId : field;
  tokensToBuy : field
}.

(** [!v] *)
Definition falsy (v : field) : bool :=
  match v with
  | Absent => true
  | Number q => Qeq_bool q 0
  | Value truthy _ _ => negb truthy
  end.

(** The number a comparison or a product takes [v] for; [undefined] converts
    to [NaN]. *)
Definition ToNumber (v : field) : number :=
  match v with
  | Absent => NaN
  | Number q => Finite q
  | Value _ x _ => x
  end.

(** [v <= 0] *)
Definition le_zero (v : field) : bool := fle (ToNumber v) (Finite 0).

(** [v] as a parameter of a query, where the store expects an integer;
    the driver binds [undefined] as [NULL]. *)
Definition bound (v : field) : reading :=
  match v with
  | Absent => Null
  | Number q => read_number (Finite q)
  | Value _ _ r => r
  end.

(** A number of a JSON body: the double nearest to the literal. *)
Definition json_number (q : Q) : field :=
  match rounded q with
  | Finite x => Number x
  | x => Value true x Unreadable
  end.

(** ** Exceptions and responses *)

Inductive exn :=
| Error (message : string)       (* [throw new Error(message)] *)
| TypeError                      (* reading a property of [undefined] *)
| DatabaseError (e : store_error). (* a rejected [client.query] *)

(** [err.message]: the literal of a thrown [Error]; the text of the other
    two is chosen by the engine and by the driver. *)
Inductive message :=
| Text (s : string)
| EngineText
| DriverText (e : store_error).

Definition message_of (err : exn) : message :=
  match err with
  | Error m => Text m
  | TypeError => EngineText
  | DatabaseError e => DriverText e
  end.

Inductive body :=
| ErrorJson (error : message)
| InvestJson (spent remainingBalance newTotalInvestment newMonthlyYield : number).

Record response := Response {
  status : Z;
  json : body
}.

(** ** The connection *)

Inductive event :=
| Connect
| BEGIN
| SELECT_asset
| SELECT_dashboard
| UPDATE_assets
| UPDATE_dashboard
| COMMIT
| ROLLBACK
| Release
| COUNT_dashboard
| COUNT_assets
| INSERT_dashboard
| INSERT_asset.

(** A checked-out client: the rows it sees, the rows to go back to on
    [ROLLBACK] while a transaction is open, and what was sent so far. *)
Record session := Session {
  store : database;
  restore_point : option database;
  issued : list event
}.

Definition sent (e : event) (s : session) : session :=
  {| store := store s; restore_point := restore_point s;
     issued := issued s ++ [e] |}.

Definition with_store (db : database) (s : session) : session :=
  {| store := db; restore_point := restore_point s; issued := issued s |}.

(** Code that awaits queries on the client: it either throws or returns. *)
Definition client (A : Type) : Type := session -> (exn + A) * session.

#[global] Instance client_ret : MRet client :=
  fun A (x : A) s => (inr x, s).

#[global] Instance client_bind : MBind client :=
  fun A B (k : A -> client B) (m : client A) s =>
    match m s with
    | (inl err, s') => (inl err, s')
    | (inr x, s') => k x s'
    end.

Definition throw {A : Type} (err : exn) : client A :=
  fun s => (inl err, s).

Definition begin : client unit :=
  fun s => (inr tt, {| store := store s; restore_point := Some (store s);
                       issued := issued s ++ [BEGIN] |}).

Definition commit : client unit :=
  fun s => (inr tt, {| store := store s; restore_point := None;
                       issued := issued s ++ [COMMIT] |}).

Definition rollback : client unit :=
  fun s => (inr tt, {| store := default (store s) (restore_point s);
                       restore_point := None;
                       issued := issued s ++ [ROLLBACK] |}).

(** [SELECT * FROM assets WHERE id = $1] *)
Definition select_asset (id : field) : client (list asset_row) :=
  fun s =>
    match bound id with
    | Unreadable => (inl (DatabaseError InvalidInteger), sent SELECT_asset s)
    | Null => (inr [], sent SELECT_asset s)
    | Integer k =>
        (inr (option_list (assets (store s) !! k)), sent SELECT_asset s)
    end.

(** [SELECT * FROM dashboard LIMIT 1] *)
Definition select_dashboard : client (list dashboard_row) :=
  fun s => (inr (take 1 (dashboard (store s))), sent SELECT_dashboard s).

Definition take_tokens (n : Z) (a : asset_row) : asset_row :=
  {| name := name a; location := location a; apy := apy a;
     price_per_token := price_per_token a;
     tokens_available := tokens_available a - n |}.

(** [UPDATE assets SET tokens_available = tokens_available - $1 WHERE id = $2];
    the difference must be a 32-bit integer again, and the difference with
    [NULL] is [NULL], which the column does not take. *)
Definition update_assets (n id : field) : client unit :=
  fun s =>
    let db := store s in
    match bound n, bound id with
    | Unreadable, _ | _, Unreadable =>
        (inl (DatabaseError InvalidInteger), sent UPDATE_assets s)
    | _, Null => (inr tt, sent UPDATE_assets s)
    | Null, Integer k =>
        match assets db !! k with
        | Some _ => (inl (DatabaseError NotNullViolation), sent UPDATE_assets s)
        | None => (inr tt, sent UPDATE_assets s)
        end
    | Integer d, Integer k =>
        match assets db !! k with
        | Some asset =>
            if int4 (tokens_available asset - d)
            then (inr tt,
                  sent UPDATE_assets
                    (with_store
                       {| dashboard := dashboard db;
                          dashboard_id_seq := dashboard_id_seq db;
                          assets := alter (take_tokens d) k (assets db);
                          assets_id_seq := assets_id_seq db |} s))
            else (inl (DatabaseError IntegerOutOfRange), sent UPDATE_assets s)
        | None => (inr tt, sent UPDATE_assets s)
        end
    end.

Definition set_amounts (w t m : decimal) (d : dashboard_row) : dashboard_row :=
  {| d_id := d_id d; wallet_balance := w; total_investment := t;
     monthly_yield := m |}.

(** The rows after [UPDATE ... WHERE id = $4]: those with another id stay in
    their order, the new versions of the others come behind them. *)
Definition rewritten (id : Z) (w t m : decimal) (rows : list dashboard_row)
    : list dashboard_row :=
  filter (fun d => d_id d <> id) rows ++
  (set_amounts w t m <$> filter (fun d => d_id d = id) rows).

(** [UPDATE dashboard SET wallet_balance = $1, total_investment = $2,
    monthly_yield = $3 WHERE id = $4] *)
Definition update_dashboard (w t m : number) (id : Z) : client unit :=
  fun s =>
    match numeric_15_2 w, numeric_15_2 t, numeric_15_2 m with
    | Some w', Some t', Some m' =>
        let db := store s in
        (inr tt,
         sent UPDATE_dashboard
           (with_store {| dashboard := rewritten id w' t' m' (dashboard db);
                          dashboard_id_seq := dashboard_id_seq db;
                          assets := assets db;
                          assets_id_seq := assets_id_seq db |} s))
    | _, _, _ => (inl (DatabaseError NumericOverflow), sent UPDATE_dashboard s)
    end.

(** ** [POST /invest] *)

(** [!assetId || !tokensToBuy || tokensToBuy <= 0] *)
Definition invalid_input (req : request) : bool :=
  falsy (assetId req) || falsy (tokensToBuy req) || le_zero (tokensToBuy req).

Definition bad_request : response :=
  Response 400 (ErrorJson (Text "Valid assetId and tokensToBuy are required")).

(** [asset.price_per_token * tokensToBuy]; the product coerces the text of
    the column, and [tokensToBuy], to their numbers. *)
Definition totalCost (asset : asset_row) (tokensToBuy : number) : number :=
  fmul (parseFloat (price_per_token asset)) tokensToBuy.

(** [(totalCost * (parseFloat(asset.apy) / 100)) / 12] *)
Definition addedMonthlyYield (asset : asset_row) (totalCost : number) : number :=
  fdiv (fmul totalCost (fdiv (parseFloat (apy asset)) (Finite 100))) (Finite 12).

(** The [try] block down to the balance check: [BEGIN], the two reads and
    the three [throw]s. *)
Definition checks (assetId tokensToBuy : field)
    : client (asset_row * dashboard_row) :=
  begin ;;
  assetRes ← select_asset assetId ;
  match assetRes with
  | [] => throw (Error "Asset not found")
  | asset :: _ =>
      if flt (of_integer (tokens_available asset)) (ToNumber tokensToBuy)
      then throw (Error "Not enough tokens available in this asset")
      else
        let totalCost := totalCost asset (ToNumber tokensToBuy) in
        dashRes ← select_dashboard ;
        match dashRes with
        | [] => throw TypeError
        | dashboard :: _ =>
            if flt (parseFloat (wallet_balance dashboard)) totalCost
            then throw (Error "Insufficient wallet balance to complete transaction")
            else mret (asset, dashboard)
        end
  end.

(** The rest of the [try] block: the two updates, [COMMIT] and the data of
    the answer. *)
Definition writes (assetId tokensToBuy : field) (asset : asset_row)
    (dashboard : dashboard_row) : client body :=
  let totalCost := totalCost asset (ToNumber tokensToBuy) in
  update_assets tokensToBuy assetId ;;
  let newTotalInvestment :=
    fadd (parseFloat (total_investment dashboard)) totalCost in
  let newWalletBalance :=
    fsub (parseFloat (wallet_balance dashboard)) totalCost in
  let addedMonthlyYield := addedMonthlyYield asset totalCost in
  let newMonthlyYield :=
    fadd (parseFloat (monthly_yield dashboard)) addedMonthlyYield in
  update_dashboard newWalletBalance newTotalInvestment
                   newMonthlyYield (d_id dashboard) ;;
  commit ;;
  mret (InvestJson totalCost newWalletBalance newTotalInvestment
                   newMonthlyYield).

(** The body of the [try] block. *)
Definition transaction (assetId tokensToBuy : field) : client body :=
  '(asset, dashboard) ← checks assetId tokensToBuy ;
  writes assetId tokensToBuy asset dashboard.

(** [await pool.connect()] *)
Definition connected (db : database) : session :=
  {| store := db; restore_point := None; issued := [Connect] |}.

(** What a request leaves behind: the response, the rows the next request
    finds and the events on the connection. *)
Record outcome := Outcome {
  reply : response;
  after : database;
  log : list event
}.

(** [client.release()].  The writes of a transaction that was neither
    committed nor rolled back stay with the connection: the next request
    finds the rows of its [BEGIN]. *)
Definition finish (r : response) (s : session) : outcome :=
  {| reply := r;
     after := default (store s) (restore_point s);
     log := issued s ++ [Release] |}.

(** [catch (err) { ROLLBACK; 400 } finally { release }] around the result of
    the [try] block. *)
Definition settle (r : (exn + body) * session) : outcome :=
  match r with
  | (inr data, s) => finish (Response 200 data) s
  | (inl err, s) =>
      finish (Response 400 (ErrorJson (message_of err))) (rollback s).2
  end.

(** The handler: the guard, then the transaction on a client of the pool. *)
Definition invest (req : request) (db : database) : outcome :=
  if invalid_input req
  then {| reply := bad_request; after := db; log := [] |}
  else settle (transaction (assetId req) (tokensToBuy req) (connected db)).


(** *** Requests in flight together *)

(** The connection of a request that has written nothing yet, once other
    connections have committed [db]: its next statement sees the committed
    rows, and a [ROLLBACK] leaves them. *)
Definition seeing (db : database) (s : session) : session :=
  {| store := db; restore_point := Some db; issued := issued s |}.

(** [req] is in flight while other requests are served on other
    connections: they are served from their first statement to their last,
    taking [db] to [others db], after the two reads of [req] were answered
    and before its first [UPDATE] arrives. *)
Definition invest_around (req : request) (others : database -> database)
    (db : database) : outcome :=
  if invalid_input req
  then {| reply := bad_request; after := others db; log := [] |}
  else
    match checks (assetId req) (tokensToBuy req) (connected db) with
    | (inl err, s) => settle (inl err, seeing (others db) s)
    | (inr (asset, dashboard), s) =>
        settle (writes (assetId req) (tokensToBuy req) asset dashboard
                  (seeing (others db) s))
    end.

(** Each request of the list is in flight around the ones behind it. *)
Fixpoint invest_nested (reqs : list request) (db : database) : database :=
  match reqs with
  | [] => db
  | req :: reqs' => after (invest_around req (invest_nested reqs') db)
  end.

(** The rows inserted by [seedData] into empty tables of a new database. *)
Definition seeded : database :=
  {| dashboard := [DashboardRow 1 1500000 520000 43550];
     dashboard_id_seq := 2;
     assets :=
       <[1 := AssetRow "Skyline Apartments" "New York, NY" 850 5000 1000]>
       (<[2 := AssetRow "Ocean View Villa" "Miami, FL" 1200 15000 500]>
       (<[3 := AssetRow "Mountain Retreat" "Aspen, CO" 1020 7500 800]>
       (<[4 := AssetRow "Downtown Office" "Chicago, IL" 980 12000 1200]> ∅)));
     assets_id_seq := 5 |}.

(** ** Start-up: [ensureDatabaseExists], [createTablesQuery], [seedData] *)

(** The database [onblock] of the server: each relation is there or not. *)
Record catalog := Catalog {
  dashboard_rel : option (list dashboard_row * Z);
  assets_rel : option (gmap Z asset_row * Z)
}.

(** The server: [None] while there is no database named [onblock]. *)
Definition cluster : Type := option catalog.

Definition catalog_of (db : database) : catalog :=
  {| dashboard_rel := Some (dashboard db, dashboard_id_seq db);
     assets_rel := Some (assets db, assets_id_seq db) |}.

(** [SELECT 1 FROM pg_database WHERE datname = 'onblock'], then
    [CREATE DATABASE onblock] when no row comes back. *)
Definition ensureDatabaseExists (c : cluster) : catalog :=
  match c with
  | None => {| dashboard_rel := None; assets_rel := None |}
  | Some cat => cat
  end.

(** The two [CREATE TABLE IF NOT EXISTS]; a new [SERIAL] starts at 1. *)
Definition createTablesQuery (cat : catalog) : database :=
  let d := default ([], 1) (dashboard_rel cat) in
  let a := default (∅, 1) (assets_rel cat) in
  {| dashboard := d.1; dashboard_id_seq := d.2;
     assets := a.1; assets_id_seq := a.2 |}.

(** [INSERT INTO dashboard (wallet_balance, total_investment, monthly_yield)
    VALUES (...)], the three amounts being decimals of the statement; the
    key is the next value of the sequence, which stays consumed when the
    statement fails. *)
Definition insert_dashboard (w t m : Q) : client unit :=
  fun s =>
    let db := store s in
    let id := dashboard_id_seq db in
    let next (rows : list dashboard_row) :=
      sent INSERT_dashboard
        (with_store {| dashboard := rows; dashboard_id_seq := id + 1;
                       assets := assets db;
                       assets_id_seq := assets_id_seq db |} s) in
    match numeric_in 15 w, numeric_in 15 t, numeric_in 15 m with
    | Some w', Some t', Some m' =>
        if existsb (fun d => d_id d =? id) (dashboard db)
        then (inl (DatabaseError UniqueViolation), next (dashboard db))
        else (inr tt, next (dashboard db ++ [DashboardRow id w' t' m']))
    | _, _, _ => (inl (DatabaseError NumericOverflow), next (dashboard db))
    end.

(** One element of [dummyAssets]. *)
Record dummy_asset := DummyAsset {
  dummy_name : string;
  dummy_location : string;
  dummy_apy : number;
  dummy_price : number;
  dummy_tokens : number
}.

(** [INSERT INTO assets (name, location, apy, price_per_token,
    tokens_available) VALUES ($1, $2, $3, $4, $5)] *)
Definition insert_asset (x : dummy_asset) : client unit :=
  fun s =>
    let db := store s in
    let id := assets_id_seq db in
    let next (rows : gmap Z asset_row) :=
      sent INSERT_asset
        (with_store {| dashboard := dashboard db;
                       dashboard_id_seq := dashboard_id_seq db;
                       assets := rows; assets_id_seq := id + 1 |} s) in
    match numeric_5_2 (dummy_apy x), numeric_15_2 (dummy_price x),
          read_number (dummy_tokens x) with
    | Some a, Some p, Integer n =>
        match assets db !! id with
        | Some _ => (inl (DatabaseError UniqueViolation), next (assets db))
        | None =>
            (inr tt,
             next (<[id := AssetRow (dummy_name x) (dummy_location x) a p n]>
                     (assets db)))
        end
    | None, _, _ | _, None, _ =>
        (inl (DatabaseError NumericOverflow), next (assets db))
    | _, _, _ => (inl (DatabaseError InvalidInteger), next (assets db))
    end.

(** [parseInt((SELECT COUNT( * ) FROM dashboard).rows[0].count)] *)
Definition count_dashboard : client Z :=
  fun s => (inr (Z.of_nat (length (dashboard (store s)))),
            sent COUNT_dashboard s).

(** [parseInt((SELECT COUNT( * ) FROM assets).rows[0].count)] *)
Definition count_assets : client Z :=
  fun s => (inr (Z.of_nat (size (assets (store s)))), sent COUNT_assets s).

(** [for (const x of l) { await body(x) }] *)
Fixpoint for_of {A : Type} (l : list A) (body : A -> client unit) : client unit :=
  match l with
  | [] => mret tt
  | x :: l' => body x ;; for_of l' body
  end.

Definition dummyAssets : list dummy_asset :=
  [ DummyAsset "Skyline Apartments" "New York, NY"
      (Finite (literal 8.5)) (Finite (literal 50.00)) (Finite (literal 1000));
    DummyAsset "Ocean View Villa" "Miami, FL"
      (Finite (literal 12.0)) (Finite (literal 150.00)) (Finite (literal 500));
    DummyAsset "Mountain Retreat" "Aspen, CO"
      (Finite (literal 10.2)) (Finite (literal 75.00)) (Finite (literal 800));
    DummyAsset "Downtown Office" "Chicago, IL"
      (Finite (literal 9.8)) (Finite (literal 120.00)) (Finite (literal 1200)) ].

(** The body of the [try] block of [seedData]. *)
Definition seed_queries : client unit :=
  dashboardCheck ← count_dashboard ;
  (if dashboardCheck =? 0
   then insert_dashboard 15000.00 5200.00 435.50
   else mret tt) ;;
  assetsCheck ← count_assets ;
  if assetsCheck =? 0
  then for_of dummyAssets insert_asset
  else mret tt.

(** [seedData]: every statement goes through [pool.query] on its own, so
    what was inserted before an error stays; the error is only printed. *)
Definition seedData (db : database) : database :=
  store (seed_queries {| store := db; restore_point := None; issued := [] |}).2.

(** [initDB], with every statement reaching the server. *)
Definition initDB (c : cluster) : cluster :=
  Some (catalog_of (seedData (createTablesQuery (ensureDatabaseExists c)))).

(** The database a successful purchase of [d] tokens of asset [k] leaves,
    the dashboard row that was read being [dash] and the new amounts [w],
    [t], [m]. *)
Definition purchased (db : database) (k d : Z) (dash : dashboard_row)
    (w t m : decimal) : database :=
  {| dashboard := rewritten (d_id dash) w t m (dashboard db);
     dashboard_id_seq := dashboard_id_seq db;
     assets := alter (take_tokens d) k (assets db);
     assets_id_seq := assets_id_seq db |}.

(** Requests served one after the other. *)
Definition invest_all (reqs : list request) (db : database) : database :=
  foldl (fun db req => after (invest req db)) db reqs.

(** ** Notions used in the statements *)

(** The field is a finite number, and that number is a positive integer. *)
Definition positive_integer (v : field) : Prop :=
  exists (n : Q) (z : Z), v = Number n /\ (n == inject_Z z)%Q /\ 0 < z.

(** The field is a finite number or is absent. *)
Definition numeric (v : field) : Prop :=
  match v with
  | Value _ _ _ => False
  | _ => True
  end.

(** The store reads from the value, where it reads an integer, the integer
    that the value converts to: so it is for every number and for a string
    of digits. *)
Definition agreed (v : field) : Prop :=
  forall d : Z,
    bound v = Integer d ->
    exists n : Q, ToNumber v = Finite n /\ (n == inject_Z d)%Q.

(** An amount that is a number, and not below zero. *)
Definition not_negative (v : decimal) : Prop :=
  match v with
  | DecimalNaN => False
  | Hundredths z => 0 <= z
  end.

(** No asset is oversold and no dashboard row is overdrawn. *)
Definition consistent (db : database) : Prop :=
  map_Forall (fun _ asset => 0 <= tokens_available asset) (assets db) /\
  Forall (fun dash => not_negative (wallet_balance dash)) (dashboard db).

(** Every price is a number, and every wallet balance that is a number has
    the 15 digits of its column. *)
Definition in_columns (db : database) : Prop :=
  map_Forall (fun _ asset => price_per_token asset <> DecimalNaN) (assets db) /\
  Forall (fun dash => match wallet_balance dash with
                      | DecimalNaN => True
                      | Hundredths z => Z.abs z < 10 ^ 15
                      end) (dashboard db).

(** The seeded rows with a cumulative investment of 9 999 999 999 999.00;
    a [DECIMAL(15, 2)] column holds amounts below 10 000 000 000 000. *)
Definition ledger_at_limit : database :=
  {| dashboard := [DashboardRow 1 1500000 999999999999900 43550];
     dashboard_id_seq := dashboard_id_seq seeded;
     assets := assets seeded;
     assets_id_seq := assets_id_seq seeded |}.

(** A table with an asset at 0.10 a token, and 100.00 in the wallet. *)
Definition penny_ledger : database :=
  {| dashboard := [DashboardRow 1 10000 0 0];
     dashboard_id_seq := 2;
     assets := <[1 := AssetRow "Corner Kiosk" "Austin, TX" 500 10 1000]> ∅;
     assets_id_seq := 2 |}.

(** The seeded dashboard with one asset that has 10 tokens left. *)
Definition ten_tokens : database :=
  {| dashboard := [DashboardRow 1 1500000 520000 43550];
     dashboard_id_seq := 2;
     assets := <[1 := AssetRow "Skyline Apartments" "New York, NY" 850 5000 10]> ∅;
     assets_id_seq := 2 |}.

(** The four rows [seedData] puts into an empty [assets] table whose
    sequence is at [s]. *)
Definition seeded_assets (s : Z) : gmap Z asset_row :=
  <[s + 3 := AssetRow "Downtown Office" "Chicago, IL" 980 12000 1200]>
  (<[s + 2 := AssetRow "Mountain Retreat" "Aspen, CO" 1020 7500 800]>
  (<[s + 1 := AssetRow "Ocean View Villa" "Miami, FL" 1200 15000 500]>
  (<[s := AssetRow "Skyline Apartments" "New York, NY" 850 5000 1000]> ∅))).

(** What a request leaves when it is refused inside the transaction with
    the message [m], the statements [mid] having been sent after [BEGIN]. *)
Definition rolled_back (db : database) (m : message) (mid : list event)
    : outcome :=
  {| reply := Response 400 (ErrorJson m);
     after := db;
     log := Connect :: BEGIN :: mid ++ [ROLLBACK; Release] |}.

(** ** [GET /dashboard] and [GET /assets] *)

(** A statement through [pool.query], outside any transaction. *)
Definition pooled (db : database) : session :=
  {| store := db; restore_point := None; issued := [] |}.

(** The bodies of the two read handlers: [{}], a dashboard row, the asset
    rows, or [{ error: 'Database query failed', details: err.message }]. *)
Inductive read_json :=
| EmptyObject
| DashboardJson (row : dashboard_row)
| AssetsJson (rows : list (Z * asset_row))
| QueryFailed (details : message).

(** [app.get('/dashboard', ...)]: [res.json(result.rows[0] || {})], or
    status 500 from the [catch]. *)
Definition get_dashboard (db : database) : Z * read_json :=
  match select_dashboard (pooled db) with
  | (inr rows, _) =>
      (200, match rows with
            | [] => EmptyObject
            | row :: _ => DashboardJson row
            end)
  | (inl err, _) => (500, QueryFailed (message_of err))
  end.

(** The order of [ORDER BY id ASC] on rows with their key. *)
Definition id_le (x y : Z * asset_row) : Prop := x.1 <= y.1.

#[global] Instance id_le_dec (x y : Z * asset_row) : Decision (id_le x y) :=
  Z_le_dec x.1 y.1.

(** [SELECT * FROM assets ORDER BY id ASC] *)
Definition select_assets : client (list (Z * asset_row)) :=
  fun s => (inr (merge_sort id_le (map_to_list (assets (store s)))), s).

(** [app.get('/assets', ...)]: [res.json(result.rows)], or status 500 from
    the [catch]. *)
Definition get_assets (db : database) : Z * read_json :=
  match select_assets (pooled db) with
  | (inr rows, _) => (200, AssetsJson rows)
  | (inl err, _) => (500, QueryFailed (message_of err))
  end.

(** The ids of a listing, in the order of the listing. *)
Definition listed_ids (r : Z * read_json) : list Z :=
  match r.2 with
  | AssetsJson rows => rows.*1
  | _ => []
  end.

(** The tables [initDB] leaves on the server. *)
Definition started (c : cluster) : database :=
  seedData (createTablesQuery (ensureDatabaseExists c)).

(** The statements sent between [BEGIN] and the end of a transaction. *)
Definition reads_or_updates (e : event) : bool :=
  match e with
  | SELECT_asset | SELECT_dashboard | UPDATE_assets | UPDATE_dashboard => true
  | _ => false
  end.

(** * Properties *)

(** ** Numbers *)

Lemma Qlt_bool_false (x y : Q) : Qlt_bool x y = false -> (y <= x)%Q.
Proof.
  unfold Qlt_bool. intros H. apply Qle_bool_iff.
  destruct (Qle_bool y x); [reflexivity | discriminate].
Qed.


(** A parameter accepted at an [INTEGER] position is that integer. *)
Lemma int4_in_Some (q : Q) (k : Z) :
  int4_in q = Some k -> (q == inject_Z k)%Q /\ - 2 ^ 31 <= k <= 2 ^ 31 - 1.
Proof.
  unfold int4_in. intros H.
  destruct (Qden (Qred q) =? 1)%positive eqn:Hd; [| discriminate].
  destruct (- 2 ^ 31 <=? Qnum (Qred q)) eqn:Hlo; [| discriminate].
  destruct (Qnum (Qred q) <=? 2 ^ 31 - 1) eqn:Hhi; [| discriminate].
  cbn in H. injection H as <-.
  apply Pos.eqb_eq in Hd. apply Z.leb_le in Hlo, Hhi.
  split; [| lia].
  rewrite <- (Qred_correct q) at 1.
  destruct (Qred q) as [num den]. cbn in *. subst den. reflexivity.
Qed.


Lemma Qlt_bool_false_intro (x y : Q) : (y <= x)%Q -> Qlt_bool x y = false.
Proof.
  intros H. unfold Qlt_bool. apply Qle_bool_iff in H. rewrite H. reflexivity.
Qed.


Lemma round_half_away_nonneg (q : Q) : (0 <= q)%Q -> 0 <= round_half_away q.
Proof.
  intros H. unfold round_half_away.
  apply Qle_bool_iff in H as Hb. rewrite Hb.
  change 0 with (Qfloor 0). apply Qfloor_resp_le.
  apply Qle_trans with q; [exact H |].
  rewrite <- (Qplus_0_r q) at 1. apply Qplus_le_r. discriminate.
Qed.

(** An amount with two fractional digits is stored as it is. *)
Lemma two_pow_pos (e : Z) : (0 < two_pow e)%Q.
Proof.
  destruct e as [| p | p]; unfold two_pow.
  - reflexivity.
  - change 0%Q with (inject_Z 0). rewrite <- Zlt_Qlt. apply Z.pow_pos_nonneg; lia.
  - reflexivity.
Qed.

Lemma binary_round_aux_sign (sx : bool) (mx ex : Z) (lx : SpecFloat.location) :
  match binary_round_aux 53 1024 sx mx ex lx with
  | S754_finite s _ _ => s = sx
  | _ => True
  end.
Proof.
  unfold binary_round_aux.
  destruct (shr_fexp 53 1024 mx ex lx) as [mrs' e'].
  destruct (shr_fexp 53 1024 _ e' loc_Exact) as [mrs'' e''].
  destruct (shr_m mrs''); [exact I | | exact I].
  destruct (e'' <=? 1024 - 53); [reflexivity | exact I].
Qed.

Lemma value_nonneg (f : spec_float) :
  match f with S754_finite s _ _ => s = false | _ => True end ->
  (0 <= value f)%Q.
Proof.
  destruct f as [s | s | | s m e]; cbn; try discriminate.
  intros ->. apply Qmult_le_0_compat;
    [discriminate | apply Qlt_le_weak, two_pow_pos].
Qed.

Lemma to_double_sign (x : Q) :
  (0 <= x)%Q ->
  match to_double x with S754_finite s _ _ => s = false | _ => True end.
Proof.
  intros Hx. unfold to_double. destruct x as [num den]. cbn [Qnum Qden].
  destruct num as [| p | p].
  - exact I.
  - cbn. destruct (SFdiv_core_binary 53 1024 (Z.pos p) 0 (Z.pos den) 0)
      as [[mz ez] lz].
    apply (binary_round_aux_sign false).
  - exfalso. unfold Qle in Hx. cbn in Hx. lia.
Qed.

(** Rounding to a double, and writing a double out, keep a number that is
    not negative so. *)
Lemma round64_nonneg (x : Q) : (0 <= x)%Q -> (0 <= round64 x)%Q.
Proof.
  intros Hx. unfold round64. rewrite Qred_correct.
  apply value_nonneg, to_double_sign, Hx.
Qed.

Lemma pow10_pos (q : Z) : (0 < pow10 q)%Q.
Proof.
  destruct q as [| p | p]; unfold pow10.
  - reflexivity.
  - change 0%Q with (inject_Z 0). rewrite <- Zlt_Qlt. apply Z.pow_pos_nonneg; lia.
  - reflexivity.
Qed.

Lemma fewest_digits_nonneg (fuel : nat) (k : Z) (m : positive) (e : Z) (x : Q)
    (n : Z) :
  (0 <= x)%Q -> (0 <= fewest_digits fuel k m e x n)%Q.
Proof.
  intros Hx. revert k. induction fuel as [| fuel IH]; intros k; [exact Hx |].
  cbn [fewest_digits].
  assert (0 <= Qfloor (x / pow10 (n - k))) as Hs.
  { change 0 with (Qfloor 0). apply Qfloor_resp_le.
    unfold Qdiv. apply Qmult_le_0_compat; [exact Hx |].
    apply Qlt_le_weak, Qinv_lt_0_compat, pow10_pos. }
  assert (forall z : Z, 0 <= z -> (0 <= inject_Z z * pow10 (n - k))%Q) as Hmul.
  { intros z Hz. apply Qmult_le_0_compat.
    - change 0%Q with (inject_Z 0). rewrite <- Zle_Qle. exact Hz.
    - apply Qlt_le_weak, pow10_pos. }
  destruct (reads_back m e _), (reads_back m e _);
    try (apply Hmul; lia); [| apply IH].
  destruct (Qcompare _ _); [destruct (Z.even _) | |]; apply Hmul; lia.
Qed.

Lemma shortest_nonneg (x : Q) : (0 <= x)%Q -> (0 <= shortest x)%Q.
Proof.
  intros Hx. unfold shortest. pose proof (to_double_sign x Hx) as Hs.
  destruct (to_double x) as [s | s | | s m e]; try apply Qle_refl.
  subst s. rewrite Qred_correct. apply fewest_digits_nonneg.
  apply (value_nonneg (S754_finite false m e)). reflexivity.
Qed.

Lemma rounded_nonneg (x : Q) :
  (0 <= x)%Q ->
  match rounded x with
  | Finite r => (0 <= r)%Q
  | Infinity s => s = false
  | NaN => False
  end.
Proof.
  intros Hx. unfold rounded. destruct (overflows x).
  - unfold Qlt_bool. apply Qle_bool_iff in Hx. rewrite Hx. reflexivity.
  - apply round64_nonneg, Hx.
Qed.

Lemma numeric_2_nonneg (p : Z) (q : Q) (c : decimal) :
  (0 <= q)%Q -> numeric_2 p (Finite q) = Some c -> not_negative c.
Proof.
  intros Hq. unfold numeric_2, numeric_in.
  destruct (Z.abs _ <? 10 ^ p); [| discriminate].
  intros [= <-]. apply round_half_away_nonneg.
  apply Qmult_le_0_compat; [apply shortest_nonneg, Hq | discriminate].
Qed.

(** ** What the store reads of a field *)

Lemma bound_Number (a : Q) (k : Z) :
  int4_in a = Some k -> bound (Number a) = Integer k.
Proof. intros H. cbn. rewrite H. reflexivity. Qed.

Lemma bound_Number_None (a : Q) :
  int4_in a = None -> bound (Number a) = Unreadable.
Proof. intros H. cbn. rewrite H. reflexivity. Qed.

Lemma bound_Number_Integer (a : Q) (k : Z) :
  bound (Number a) = Integer k -> int4_in a = Some k.
Proof. cbn. destruct (int4_in a); cbn; congruence. Qed.

Lemma flt_Finite (x y : Q) : flt (Finite x) (Finite y) = Qlt_bool x y.
Proof. reflexivity. Qed.

(** ** The transaction, case by case *)

#[local] Arguments int4_in : simpl never.
#[local] Arguments int4 : simpl never.
#[local] Arguments bound : simpl never.
#[local] Arguments ToNumber : simpl never.
#[local] Arguments numeric_15_2 : simpl never.
#[local] Arguments Qlt_bool : simpl never.
#[local] Arguments flt : simpl never.
#[local] Arguments fle : simpl never.
#[local] Arguments totalCost : simpl never.
#[local] Arguments addedMonthlyYield : simpl never.
#[local] Arguments parseFloat : simpl never.
#[local] Arguments of_integer : simpl never.
#[local] Arguments fadd : simpl never.
#[local] Arguments fsub : simpl never.
#[local] Arguments fmul : simpl never.
#[local] Arguments fdiv : simpl never.
#[local] Arguments rewritten : simpl never.
#[local] Arguments Qplus : simpl never.
#[local] Arguments Qminus : simpl never.
#[local] Arguments inject_Z : simpl never.

Ltac run :=
  unfold transaction, checks, writes, mbind, client_bind, mret, client_ret,
    begin, commit, throw, select_asset, select_dashboard, update_assets,
    update_dashboard, sent, with_store;
  cbn.

(** The reads and checks of the transaction, one scrutinee after the other;
    [tac] closes the branches that throw. *)
Ltac step_checks a n s asset dash H tac :=
  destruct (bound a) as [| ?k |] eqn:?Ha; cbn in H; [tac | | tac];
  destruct (assets (store s) !! _) as [asset |] eqn:?Hasset; cbn in H; [| tac];
  destruct (flt (of_integer _) (ToNumber n)) eqn:?Htok; cbn in H; [tac |];
  destruct (dashboard (store s)) as [| dash ?rest] eqn:?Hdash; cbn in H; [tac |];
  destruct (flt (parseFloat _) (totalCost asset _)) eqn:?Hbal; cbn in H; [tac |].

(** The three amounts the handler sends to the dashboard. *)
Ltac step_amounts dash H tac :=
  destruct (numeric_15_2 (fsub _ _)) as [?w |] eqn:?Hw; cbn in H; [| tac];
  destruct (numeric_15_2 (fadd (parseFloat (total_investment dash)) _))
    as [?t |] eqn:?Ht; cbn in H; [| tac];
  destruct (numeric_15_2 (fadd (parseFloat (monthly_yield dash)) _))
    as [?m |] eqn:?Hm; cbn in H; [| tac].



Lemma transaction_returns (a n : field) (s s' : session) (data : body) :
  transaction a n s = (inr data, s') ->
  exists k d asset dash w t m,
    bound a = Integer k /\ bound n = Integer d /\
    assets (store s) !! k = Some asset /\
    int4 (tokens_available asset - d) = true /\
    head (dashboard (store s)) = Some dash /\
    flt (of_integer (tokens_available asset)) (ToNumber n) = false /\
    flt (parseFloat (wallet_balance dash)) (totalCost asset (ToNumber n))
      = false /\
    numeric_15_2 (fsub (parseFloat (wallet_balance dash))
                    (totalCost asset (ToNumber n))) = Some w /\
    numeric_15_2 (fadd (parseFloat (total_investment dash))
                    (totalCost asset (ToNumber n))) = Some t /\
    numeric_15_2 (fadd (parseFloat (monthly_yield dash))
                    (addedMonthlyYield asset (totalCost asset (ToNumber n))))
      = Some m /\
    data = InvestJson (totalCost asset (ToNumber n))
             (fsub (parseFloat (wallet_balance dash))
                (totalCost asset (ToNumber n)))
             (fadd (parseFloat (total_investment dash))
                (totalCost asset (ToNumber n)))
             (fadd (parseFloat (monthly_yield dash))
                (addedMonthlyYield asset (totalCost asset (ToNumber n)))) /\
    store s' = purchased (store s) k d dash w t m /\
    restore_point s' = None /\
    issued s' = issued s ++ [BEGIN; SELECT_asset; SELECT_dashboard;
                             UPDATE_assets; UPDATE_dashboard; COMMIT].
Proof.
  run. intros H.
  step_checks a n s asset dash H discriminate.
  destruct (bound n) as [| d |] eqn:Hn; cbn in H; [| | discriminate];
    rewrite Hasset in H; [discriminate |].
  destruct (int4 _) eqn:Hrange; cbn in H; [| discriminate].
  step_amounts dash H discriminate.
  injection H as <- <-.
  exists k, d, asset, dash, w, t, m. cbn.
  repeat split; try assumption; try reflexivity.
  rewrite <- !app_assoc. reflexivity.
Qed.

Ltac thrown H :=
  injection H as <- <-; cbn;
  split; [reflexivity |];
  eexists; split; [rewrite <- ?app_assoc; reflexivity | reflexivity].

(** Whatever is thrown, the rows at [BEGIN] are there to go back to, and
    only reads and updates were sent since. *)
Lemma transaction_throws (a n : field) (s s' : session) (err : exn) :
  transaction a n s = (inl err, s') ->
  restore_point s' = Some (store s) /\
  exists mid,
    issued s' = issued s ++ BEGIN :: mid /\
    forallb reads_or_updates mid = true.
Proof.
  run. intros H.
  step_checks a n s asset dash H ltac:(thrown H).
  destruct (bound n) as [| d |] eqn:Hn; cbn in H; [| | thrown H];
    rewrite Hasset in H; [thrown H |].
  destruct (int4 _) eqn:Hrange; cbn in H; [| thrown H].
  step_amounts dash H ltac:(thrown H).
  discriminate.
Qed.

(** ** The handler *)

Lemma invest_guarded (req : request) (db : database) :
  invalid_input req = true ->
  invest req db = {| reply := bad_request; after := db; log := [] |}.
Proof. intros H. unfold invest. rewrite H. reflexivity. Qed.

Lemma invest_runs (req : request) (db : database) :
  invalid_input req = false ->
  invest req db =
    settle (transaction (assetId req) (tokensToBuy req) (connected db)).
Proof. intros H. unfold invest. rewrite H. reflexivity. Qed.

Lemma valid_input_positive (req : request) (n : Q) :
  invalid_input req = false -> tokensToBuy req = Number n -> (0 < n)%Q.
Proof.
  unfold invalid_input. intros H Hn. rewrite Hn in H.
  apply orb_false_elim in H as [_ Hle].
  unfold le_zero, ToNumber, fle in Hle. apply Qnot_le_lt. intros Hq.
  apply Qle_bool_iff in Hq. rewrite Hq in Hle. discriminate.
Qed.

(** The handler answers 200 or 400, nothing else. *)
Lemma invest_status (req : request) (db : database) :
  status (reply (invest req db)) = 200 \/ status (reply (invest req db)) = 400.
Proof.
  destruct (invalid_input req) eqn:H.
  - rewrite invest_guarded by exact H. right. reflexivity.
  - rewrite (invest_runs req db H).
    destruct (transaction _ _ (connected db)) as [[err | data] s1];
      [right | left]; reflexivity.
Qed.

(** A request that is not answered with 200 leaves every row as it was:
    either nothing was sent, or [ROLLBACK] went back to the rows at [BEGIN]. *)
Lemma invest_failed_unchanged (req : request) (db : database) :
  status (reply (invest req db)) <> 200 -> after (invest req db) = db.
Proof.
  destruct (invalid_input req) eqn:H.
  - rewrite invest_guarded by exact H. reflexivity.
  - rewrite (invest_runs req db H).
    destruct (transaction _ _ (connected db)) as [[err | data] s1] eqn:Ht.
    + intros _. apply transaction_throws in Ht as [Hr _].
      cbn. rewrite Hr. reflexivity.
    + intros Hs. exfalso. apply Hs. reflexivity.
Qed.

(** What is left of the log after a throw. *)
Lemma invest_thrown_log (req : request) (db : database) :
  invalid_input req = false ->
  status (reply (invest req db)) <> 200 ->
  exists mid : list event,
    forallb reads_or_updates mid = true /\
    log (invest req db) = Connect :: BEGIN :: mid ++ [ROLLBACK; Release].
Proof.
  intros H. rewrite (invest_runs req db H).
  destruct (transaction _ _ (connected db)) as [[err | data] s1] eqn:Ht.
  - intros _. apply transaction_throws in Ht as (_ & mid & Hlog & Hmid).
    exists mid. split; [exact Hmid |].
    cbn. rewrite Hlog. cbn. rewrite <- !app_assoc. reflexivity.
  - intros Hs. exfalso. apply Hs. reflexivity.
Qed.

(** What a 200 means. *)
Lemma invest_succeeded (req : request) (db : database) :
  status (reply (invest req db)) = 200 ->
  exists k d asset dash w t m,
    invalid_input req = false /\
    bound (assetId req) = Integer k /\ bound (tokensToBuy req) = Integer d /\
    assets db !! k = Some asset /\
    int4 (tokens_available asset - d) = true /\
    head (dashboard db) = Some dash /\
    flt (of_integer (tokens_available asset)) (ToNumber (tokensToBuy req))
      = false /\
    flt (parseFloat (wallet_balance dash))
        (totalCost asset (ToNumber (tokensToBuy req))) = false /\
    numeric_15_2 (fsub (parseFloat (wallet_balance dash))
                    (totalCost asset (ToNumber (tokensToBuy req)))) = Some w /\
    numeric_15_2 (fadd (parseFloat (total_investment dash))
                    (totalCost asset (ToNumber (tokensToBuy req)))) = Some t /\
    numeric_15_2 (fadd (parseFloat (monthly_yield dash))
                    (addedMonthlyYield asset
                       (totalCost asset (ToNumber (tokensToBuy req)))))
      = Some m /\
    invest req db =
      {| reply :=
           Response 200
             (InvestJson (totalCost asset (ToNumber (tokensToBuy req)))
                (fsub (parseFloat (wallet_balance dash))
                   (totalCost asset (ToNumber (tokensToBuy req))))
                (fadd (parseFloat (total_investment dash))
                   (totalCost asset (ToNumber (tokensToBuy req))))
                (fadd (parseFloat (monthly_yield dash))
                   (addedMonthlyYield asset
                      (totalCost asset (ToNumber (tokensToBuy req))))));
         after := purchased db k d dash w t m;
         log := [Connect; BEGIN; SELECT_asset; SELECT_dashboard; UPDATE_assets;
                 UPDATE_dashboard; COMMIT; Release] |}.
Proof.
  destruct (invalid_input req) eqn:H.
  - rewrite invest_guarded by exact H. discriminate.
  - rewrite (invest_runs req db H).
    destruct (transaction _ _ (connected db)) as [[err | data] s1] eqn:Ht;
      [discriminate |].
    intros _.
    apply transaction_returns in Ht
      as (k & d & asset & dash & w & t & m & Hk & Hd & Hasset & Hrange & Hdash
          & Htok & Hbal & Hw & Htot & Hm & -> & Hstore & Hopen & Hlog).
    exists k, d, asset, dash, w, t, m.
    split; [reflexivity |].
    repeat (split; [assumption |]).
    unfold settle, finish. rewrite Hstore, Hlog, Hopen. reflexivity.
Qed.

(** The handler past its guard, one case after the other. *)
Lemma invest_cases (req : request) (db : database) :
  invalid_input req = false ->
  invest req db =
    let n := ToNumber (tokensToBuy req) in
    match bound (assetId req) with
    | Unreadable => rolled_back db (DriverText InvalidInteger) [SELECT_asset]
    | Null => rolled_back db (Text "Asset not found") [SELECT_asset]
    | Integer k =>
        match assets db !! k with
        | None => rolled_back db (Text "Asset not found") [SELECT_asset]
        | Some asset =>
            if flt (of_integer (tokens_available asset)) n
            then rolled_back db
                   (Text "Not enough tokens available in this asset")
                   [SELECT_asset]
            else
              match dashboard db with
              | [] =>
                  rolled_back db EngineText [SELECT_asset; SELECT_dashboard]
              | dash :: _ =>
                  if flt (parseFloat (wallet_balance dash)) (totalCost asset n)
                  then rolled_back db
                         (Text "Insufficient wallet balance to complete transaction")
                         [SELECT_asset; SELECT_dashboard]
                  else
                    match bound (tokensToBuy req) with
                    | Unreadable =>
                        rolled_back db (DriverText InvalidInteger)
                          [SELECT_asset; SELECT_dashboard; UPDATE_assets]
                    | Null =>
                        rolled_back db (DriverText NotNullViolation)
                          [SELECT_asset; SELECT_dashboard; UPDATE_assets]
                    | Integer d =>
                        if int4 (tokens_available asset - d)
                        then
                          match
                            numeric_15_2
                              (fsub (parseFloat (wallet_balance dash))
                                 (totalCost asset n)),
                            numeric_15_2
                              (fadd (parseFloat (total_investment dash))
                                 (totalCost asset n)),
                            numeric_15_2
                              (fadd (parseFloat (monthly_yield dash))
                                 (addedMonthlyYield asset (totalCost asset n)))
                          with
                          | Some w, Some t, Some m =>
                              {| reply :=
                                   Response 200
                                     (InvestJson (totalCost asset n)
                                        (fsub (parseFloat (wallet_balance dash))
                                           (totalCost asset n))
                                        (fadd
                                           (parseFloat (total_investment dash))
                                           (totalCost asset n))
                                        (fadd (parseFloat (monthly_yield dash))
                                           (addedMonthlyYield asset
                                              (totalCost asset n))));
                                 after := purchased db k d dash w t m;
                                 log := [Connect; BEGIN; SELECT_asset;
                                         SELECT_dashboard; UPDATE_assets;
                                         UPDATE_dashboard; COMMIT; Release] |}
                          | _, _, _ =>
                              rolled_back db (DriverText NumericOverflow)
                                [SELECT_asset; SELECT_dashboard; UPDATE_assets;
                                 UPDATE_dashboard]
                          end
                        else
                          rolled_back db (DriverText IntegerOutOfRange)
                            [SELECT_asset; SELECT_dashboard; UPDATE_assets]
                    end
              end
        end
    end.
Proof.
  intros Hvalid. rewrite (invest_runs req db Hvalid).
  unfold settle, connected. run.
  destruct (bound (assetId req)) as [| k |]; cbn; try reflexivity.
  destruct (assets db !! k) as [asset |] eqn:Hasset; cbn; [| reflexivity].
  destruct (flt (of_integer _) _); cbn; [reflexivity |].
  destruct (dashboard db) as [| dash rest] eqn:Hrows; cbn; [reflexivity |].
  destruct (flt (parseFloat _) _); cbn; [reflexivity |].
  destruct (bound (tokensToBuy req)) as [| d |]; cbn; rewrite ?Hasset; cbn;
    try reflexivity.
  destruct (int4 _); cbn; [| reflexivity].
  destruct (numeric_15_2 (fsub _ _)) as [w |]; cbn; [| reflexivity].
  destruct (numeric_15_2 (fadd (parseFloat (total_investment dash)) _))
    as [t |]; cbn; [| reflexivity].
  destruct (numeric_15_2 (fadd (parseFloat (monthly_yield dash)) _))
    as [m |]; cbn; [| reflexivity].
  unfold finish, purchased. cbn. rewrite Hrows. reflexivity.
Qed.


(** ** The numbers, by example *)

Example double_arithmetic :
  fadd (Finite (literal 0.1)) (Finite (literal 0.2)) =
    Finite (literal 0.30000000000000004) /\
  fmul (Finite (literal 0.1)) (Finite 3) =
    Finite (literal 0.30000000000000004) /\
  fsub (Finite 100) (Finite (literal 0.30000000000000004)) =
    Finite (literal 99.7) /\
  fdiv (Finite 1) (Finite 3) = Finite (literal 0.3333333333333333) /\
  fdiv (Finite (literal 8.5)) (Finite 100) = Finite (literal 0.085) /\
  (literal 0.5 == 0.5)%Q /\
  ~ (literal 0.1 == 0.1)%Q /\
  literal 0.1 = (3602879701896397 # 36028797018963968)%Q.
Proof.
  repeat match goal with |- _ /\ _ => split end;
    try (vm_compute; reflexivity).
  vm_compute. discriminate.
Qed.

Example double_limits :
  rounded (inject_Z (2 ^ 1024 - 2 ^ 971)) = Finite (inject_Z (2 ^ 1024 - 2 ^ 971)) /\
  rounded (inject_Z (2 ^ 1024 - 2 ^ 970) - (1 # 2)) =
    Finite (inject_Z (2 ^ 1024 - 2 ^ 971)) /\
  rounded (inject_Z (2 ^ 1024 - 2 ^ 970)) = Infinity false /\
  rounded (- inject_Z (10 ^ 400)) = Infinity true /\
  rounded (1 # 2 ^ 1075) = Finite 0 /\
  rounded (3 # 2 ^ 1076) = Finite (1 # 2 ^ 1074).
Proof. repeat split; vm_compute; reflexivity. Qed.

Example special_values :
  fadd (Infinity false) (Infinity true) = NaN /\
  fsub (Infinity false) (Infinity false) = NaN /\
  fadd (Infinity true) (Finite 1) = Infinity true /\
  fmul (Infinity false) (Finite 0) = NaN /\
  fmul (Infinity false) (Finite (-2)) = Infinity true /\
  fdiv (Finite 1) (Infinity true) = Finite 0 /\
  fdiv (Finite 0) (Finite 0) = NaN /\
  fdiv (Infinity true) (Finite 12) = Infinity true /\
  fmul NaN (Finite 0) = NaN /\
  flt NaN (Finite 1) = false /\ flt (Finite 1) NaN = false /\
  fle NaN NaN = false /\
  flt (Finite 1) (Infinity false) = true /\
  flt (Infinity true) (Finite 1) = true /\
  flt (Infinity false) (Infinity false) = false /\
  fle (Infinity false) (Infinity false) = true /\
  fle (Finite 0) (Finite 0) = true /\ flt (Finite 0) (Finite 0) = false.
Proof. repeat split; reflexivity. Qed.

Example text_of_a_number :
  (shortest (literal 0.30000000000000004) == 0.30000000000000004)%Q /\
  (shortest (literal 0.1) == 0.1)%Q /\
  (shortest (literal 437.48499999999996) == 437.48499999999996)%Q /\
  (shortest (literal 439.0416666666667) == 439.0416666666667)%Q /\
  shortest 14500 = 14500%Q /\
  (shortest (literal 1e21) == 1e21)%Q /\
  (shortest (- literal 2.5e-7) == - 2.5e-7)%Q.
Proof. repeat split; vm_compute; reflexivity. Qed.

Example store_readings :
  int4_in 2147483647 = Some 2147483647 /\
  int4_in 2147483648 = None /\
  int4_in (-2147483648) = Some (-2147483648) /\
  int4_in (3 # 2) = None /\
  int4_in (20 # 2) = Some 10 /\
  read_number NaN = Unreadable /\
  read_number (Infinity false) = Unreadable /\
  numeric_in 15 0.125 = Some (Hundredths 13) /\
  numeric_in 15 (-0.125) = Some (Hundredths (-13)) /\
  numeric_in 15 0.124 = Some (Hundredths 12) /\
  numeric_in 15 437.485 = Some (Hundredths 43749) /\
  numeric_15_2 (Finite (literal 437.48499999999996)) = Some (Hundredths 43748) /\
  numeric_15_2 (Finite (literal 9999999999999.99)) =
    Some (Hundredths 999999999999999) /\
  numeric_15_2 (Finite (literal 9999999999999.996)) = None /\
  numeric_5_2 (Finite 1000) = None /\
  numeric_5_2 (Finite (literal 999.99)) = Some (Hundredths 99999) /\
  numeric_15_2 NaN = Some DecimalNaN /\
  numeric_15_2 (Infinity false) = None /\
  parseFloat DecimalNaN = NaN /\
  parseFloat 43550 = Finite (literal 435.5).
Proof. repeat split; vm_compute; reflexivity. Qed.

(** The update of an asset, by what the store reads of its parameters. *)
Example update_assets_readings :
  (update_assets (Number 10) (Number 1) (connected seeded)).1 = inr tt /\
  tokens_available <$>
    (assets (store (update_assets (Number 10) (Number 1)
                      (connected seeded)).2) !! 1) = Some 990 /\
  (update_assets (Number 10) (Number 9) (connected seeded)).1 = inr tt /\
  store (update_assets (Number 10) (Number 9) (connected seeded)).2 = seeded /\
  (update_assets (Value true NaN (Integer (-2147483000))) (Number 1)
     (connected seeded)).1 = inl (DatabaseError IntegerOutOfRange) /\
  (update_assets (Number 1.5) (Number 9) (connected seeded)).1 =
    inl (DatabaseError InvalidInteger) /\
  (update_assets Absent (Number 1) (connected seeded)).1 =
    inl (DatabaseError NotNullViolation) /\
  (update_assets Absent (Number 9) (connected seeded)).1 = inr tt /\
  (update_assets (Number 1) Absent (connected seeded)).1 = inr tt /\
  (select_asset Absent (connected seeded)).1 = inr [] /\
  (select_asset (Value true NaN Unreadable) (connected seeded)).1 =
    inl (DatabaseError InvalidInteger).
Proof. repeat split; vm_compute; reflexivity. Qed.
(** ** The rows of the dashboard after its update *)

Lemma elem_of_rewritten (id : Z) (w t m : decimal) (rows : list dashboard_row)
    (row : dashboard_row) :
  row ∈ rewritten id w t m rows <->
  (row ∈ rows /\ d_id row <> id) \/
  (exists old, old ∈ rows /\ d_id old = id /\ row = set_amounts w t m old).
Proof.
  unfold rewritten. rewrite elem_of_app, list_elem_of_filter, list_elem_of_fmap.
  split.
  - intros [[Hne Hin] | (old & -> & Hold)]; [left; by split |].
    apply list_elem_of_filter in Hold as [Hid Hin]. right. by exists old.
  - intros [[Hin Hne] | (old & Hin & Hid & ->)]; [left; by split |].
    right. exists old. split; [reflexivity |].
    apply list_elem_of_filter. by split.
Qed.

Lemma rewritten_ids (id : Z) (w t m : decimal) (rows : list dashboard_row) :
  d_id <$> rewritten id w t m rows ≡ₚ d_id <$> rows.
Proof.
  unfold rewritten. rewrite fmap_app, <- list_fmap_compose.
  induction rows as [| row rows IH]; [reflexivity |].
  rewrite !filter_cons. destruct (decide (d_id row <> id)) as [Hne | Heq].
  - rewrite decide_False by exact Hne. cbn. by f_equiv.
  - apply dec_stable in Heq. rewrite decide_True by exact Heq.
    rewrite fmap_cons. cbn [compose set_amounts d_id fmap].
    rewrite <- Permutation_middle. cbn. by f_equiv.
Qed.

Lemma rewritten_length (id : Z) (w t m : decimal) (rows : list dashboard_row) :
  length (rewritten id w t m rows) = length rows.
Proof.
  rewrite <- (length_fmap d_id), (rewritten_ids id w t m rows).
  apply length_fmap.
Qed.

Lemma rewritten_single (w t m : decimal) (dash : dashboard_row) :
  rewritten (d_id dash) w t m [dash] = [set_amounts w t m dash].
Proof.
  unfold rewritten. rewrite !filter_cons, !filter_nil.
  rewrite decide_False by (intros H; by apply H).
  rewrite decide_True by reflexivity. reflexivity.
Qed.

(** The row that was read is among those that are written. *)
Lemma rewritten_read (w t m : decimal) (rows : list dashboard_row)
    (dash : dashboard_row) :
  head rows = Some dash ->
  set_amounts w t m dash ∈ rewritten (d_id dash) w t m rows.
Proof.
  intros Hhead. apply elem_of_rewritten. right. exists dash.
  split; [| by split].
  destruct rows as [| row rows]; [discriminate |].
  injection Hhead as ->. apply list_elem_of_here.
Qed.

(** ** Purchases *)

(** C1, as it is stated, fails: the amounts of the answer are doubles, the
    amounts of the row are decimals with two fractional digits.  Three
    tokens at 0.10 are reported as spent 0.30000000000000004, which is not
    0.10 * 3, and as a new total investment of 0.30000000000000004, while the
    row holds 0.30. *)
Lemma invest_cost_rounded :
  exists remainingBalance newMonthlyYield : number,
    reply (invest (Request (json_number 1) (json_number 3)) penny_ledger) =
      Response 200
        (InvestJson (Finite (literal 0.30000000000000004)) remainingBalance
           (Finite (literal 0.30000000000000004)) newMonthlyYield) /\
    ~ (literal 0.30000000000000004 == 0.10 * 3)%Q /\
    dashboard (after (invest (Request (json_number 1) (json_number 3))
                        penny_ledger)) =
      [DashboardRow 1 9970 30 0] /\
    parseFloat 30 <> Finite (literal 0.30000000000000004).
Proof.
  eexists _, _. split; [vm_compute; reflexivity |].
  split; [vm_compute; discriminate |].
  split; [vm_compute; reflexivity |].
  vm_compute. discriminate.
Qed.

(** C1, amended.  A request is answered with 200 only when the store reads
    integers [k] and [d] from its two fields, [k] the key of an asset, and
    the dashboard has a first row.  Then, with [n] the number that
    [tokensToBuy] converts to (the number itself when it is one, and then
    [d] is that number), [spent] is the product of the price and [n] in
    double arithmetic, [remainingBalance] and [newTotalInvestment] are the
    old balance less [spent] and the old total plus [spent], in double
    arithmetic again; the dashboard rows with the id of the first row hold
    these two amounts at two fractional digits and the other rows are as
    before; the asset has [d] tokens less and the other assets are as
    before; and the transaction was committed. *)
Theorem invest_success_accounting (req : request) (db : database) :
  status (reply (invest req db)) = 200 ->
  exists (k d : Z) (asset : asset_row) (dash : dashboard_row)
         (w t m : decimal)
         (spent remainingBalance newTotalInvestment newMonthlyYield : number),
    bound (assetId req) = Integer k /\
    bound (tokensToBuy req) = Integer d /\
    (forall n : Q, tokensToBuy req = Number n -> (n == inject_Z d)%Q) /\
    assets db !! k = Some asset /\
    head (dashboard db) = Some dash /\
    reply (invest req db) =
      Response 200
        (InvestJson spent remainingBalance newTotalInvestment
           newMonthlyYield) /\
    spent = fmul (parseFloat (price_per_token asset))
              (ToNumber (tokensToBuy req)) /\
    remainingBalance = fsub (parseFloat (wallet_balance dash)) spent /\
    newTotalInvestment = fadd (parseFloat (total_investment dash)) spent /\
    numeric_15_2 remainingBalance = Some w /\
    numeric_15_2 newTotalInvestment = Some t /\
    after (invest req db) = purchased db k d dash w t m /\
    DashboardRow (d_id dash) w t m ∈ dashboard (after (invest req db)) /\
    (forall row : dashboard_row,
       row ∈ dashboard (after (invest req db)) ->
       if decide (d_id row = d_id dash)
       then wallet_balance row = w /\ total_investment row = t
       else row ∈ dashboard db) /\
    length (dashboard (after (invest req db))) = length (dashboard db) /\
    assets (after (invest req db)) !! k = Some (take_tokens d asset) /\
    tokens_available (take_tokens d asset) = tokens_available asset - d /\
    (forall j : Z,
       j <> k -> assets (after (invest req db)) !! j = assets db !! j) /\
    log (invest req db) =
      [Connect; BEGIN; SELECT_asset; SELECT_dashboard; UPDATE_assets;
       UPDATE_dashboard; COMMIT; Release].
Proof.
  intros H200.
  destruct (invest_succeeded req db H200)
    as (k & d & asset & dash & w & t & m & Hvalid & Hk & Hd & Hasset & Hrange
        & Hdash & Htok & Hbal & Hw & Ht & Hm & ->).
  exists k, d, asset, dash, w, t, m. eexists _, _, _, _.
  cbn [reply after log].
  repeat match goal with |- _ /\ _ => split end;
    try eassumption; try reflexivity.
  - intros n Hn. rewrite Hn in Hd. apply bound_Number_Integer in Hd.
    apply int4_in_Some in Hd as [Hd _]. exact Hd.
  - unfold purchased. cbn [dashboard].
    apply (rewritten_read w t m) in Hdash. exact Hdash.
  - intros row Hrow. unfold purchased in Hrow. cbn [dashboard] in Hrow.
    apply elem_of_rewritten in Hrow
      as [[Hin Hne] | (old & Hin & Hid & ->)].
    + rewrite decide_False by exact Hne. exact Hin.
    + rewrite decide_True by exact Hid. split; reflexivity.
  - unfold purchased. cbn [dashboard]. apply rewritten_length.
  - unfold purchased. cbn [assets]. rewrite lookup_alter_eq, Hasset.
    reflexivity.
  - intros j Hj. unfold purchased. cbn [assets].
    apply lookup_alter_ne. congruence.
Qed.

Lemma invest_success_accounting_witness :
  status (reply (invest (Request (json_number 1) (json_number 10)) seeded)) = 200
  /\ assets (after (invest (Request (json_number 1) (json_number 10)) seeded))
       !! 1 =
     Some (AssetRow "Skyline Apartments" "New York, NY" 850 5000 990).
Proof.
  split; [vm_compute; reflexivity |].
  destruct (invest_success_accounting
              (Request (json_number 1) (json_number 10)) seeded)
    as (k & d & asset & dash & w & t & m & spent & remaining & total & monthly
        & Hk & Hd & _ & Hasset & _ & _ & _ & _ & _ & _ & _ & _ & _ & _ & _
        & Hafter & _);
    [vm_compute; reflexivity |].
  vm_compute in Hk. injection Hk as <-.
  vm_compute in Hd. injection Hd as <-.
  rewrite Hafter. vm_compute in Hasset. injection Hasset as <-.
  reflexivity.
Defined.

(** C2, as it is stated, fails.  After two tokens of asset 1 on the seeded
    rows the monthly yield is 436.21; two tokens of asset 3 (75.00 a token,
    10.2 per cent) add 1.275.  The answer reports 437.48499999999996, which
    is not 436.21 + 1.275, and the row holds 437.48, where the sum at two
    fractional digits is 437.49. *)
Lemma invest_yield_rounded :
  monthly_yield <$>
    dashboard (after (invest (Request (json_number 1) (json_number 2)) seeded))
    = [Hundredths 43621] /\
  reply (invest (Request (json_number 3) (json_number 2))
           (after (invest (Request (json_number 1) (json_number 2)) seeded))) =
    Response 200
      (InvestJson (Finite 150) (Finite 14750) (Finite 5450)
         (Finite (literal 437.48499999999996))) /\
  ~ (literal 437.48499999999996 == 436.21 + (150 * (10.2 / 100)) / 12)%Q /\
  monthly_yield <$>
    dashboard
      (after (invest (Request (json_number 3) (json_number 2))
                (after (invest (Request (json_number 1) (json_number 2))
                          seeded)))) = [Hundredths 43748] /\
  numeric_in 15 (436.21 + (150 * (10.2 / 100)) / 12) = Some (Hundredths 43749).
Proof.
  split; [vm_compute; reflexivity |].
  split; [vm_compute; reflexivity |].
  split; [vm_compute; discriminate |].
  split; vm_compute; reflexivity.
Qed.

(** C2, amended.  When a request is answered with 200, the
    [newMonthlyYield] of the answer is the sum, in double arithmetic, of the
    old monthly yield and of [(spent * (apy / 100)) / 12], each operation in
    double arithmetic; the dashboard rows with the id of the first row hold
    that number at two fractional digits, and the transaction was
    committed. *)
Theorem invest_success_monthly_yield (req : request) (db : database) :
  status (reply (invest req db)) = 200 ->
  exists (k : Z) (asset : asset_row) (dash : dashboard_row) (m : decimal)
         (spent remainingBalance newTotalInvestment newMonthlyYield : number),
    bound (assetId req) = Integer k /\
    assets db !! k = Some asset /\
    head (dashboard db) = Some dash /\
    reply (invest req db) =
      Response 200
        (InvestJson spent remainingBalance newTotalInvestment
           newMonthlyYield) /\
    spent = fmul (parseFloat (price_per_token asset))
              (ToNumber (tokensToBuy req)) /\
    newMonthlyYield =
      fadd (parseFloat (monthly_yield dash))
        (fdiv (fmul spent (fdiv (parseFloat (apy asset)) (Finite 100)))
           (Finite 12)) /\
    numeric_15_2 newMonthlyYield = Some m /\
    (exists row : dashboard_row,
       row ∈ dashboard (after (invest req db)) /\ d_id row = d_id dash) /\
    (forall row : dashboard_row,
       row ∈ dashboard (after (invest req db)) ->
       d_id row = d_id dash -> monthly_yield row = m) /\
    log (invest req db) =
      [Connect; BEGIN; SELECT_asset; SELECT_dashboard; UPDATE_assets;
       UPDATE_dashboard; COMMIT; Release].
Proof.
  intros H200.
  destruct (invest_succeeded req db H200)
    as (k & d & asset & dash & w & t & m & Hvalid & Hk & Hd & Hasset & Hrange
        & Hdash & Htok & Hbal & Hw & Ht & Hm & ->).
  exists k, asset, dash, m. eexists _, _, _, _.
  cbn [reply after log].
  repeat match goal with |- _ /\ _ => split end;
    try eassumption; try reflexivity.
  - exists (set_amounts w t m dash). split; [| reflexivity].
    unfold purchased. cbn [dashboard]. apply rewritten_read, Hdash.
  - intros row Hrow Hid. unfold purchased in Hrow. cbn [dashboard] in Hrow.
    apply elem_of_rewritten in Hrow
      as [[Hin Hne] | (old & Hin & Hold & ->)]; [contradiction | reflexivity].
Qed.

Lemma invest_success_monthly_yield_witness :
  status (reply (invest (Request (json_number 1) (json_number 10)) seeded)) = 200
  /\ monthly_yield <$>
       dashboard (after (invest (Request (json_number 1) (json_number 10))
                           seeded)) = [Hundredths 43904].
Proof.
  split; [vm_compute; reflexivity |].
  destruct (invest_success_monthly_yield
              (Request (json_number 1) (json_number 10)) seeded)
    as (k & asset & dash & m & spent & remaining & total & monthly
        & _ & _ & _ & _ & _ & _ & _ & _ & _ & _);
    [vm_compute; reflexivity |].
  vm_compute. reflexivity.
Defined.

(** ** Rejections *)

(** What the transaction throws is none of the messages of the guard. *)
Lemma invest_refused_message (req : request) (db : database) :
  invalid_input req = false -> reply (invest req db) <> bad_request.
Proof.
  intros Hvalid. rewrite (invest_cases req db Hvalid). cbv zeta.
  repeat match goal with
         | |- context [match ?x with _ => _ end] => destruct x
         end;
    unfold rolled_back; cbn; discriminate.
Qed.

(** C3, as it is stated, fails: a fractional [tokensToBuy] of 1.5 is not a
    positive integer, yet the request passes the guard, a connection is taken
    and four statements are sent before the store refuses the number.  And
    the string ['10'] is no integer either, but the request that carries it
    is answered with 200. *)
Lemma invest_fractional_reaches_store :
  ~ positive_integer (json_number 1.5) /\
  reply (invest (Request (json_number 1) (json_number 1.5)) seeded) =
    Response 400 (ErrorJson (DriverText InvalidInteger)) /\
  reply (invest (Request (json_number 1) (json_number 1.5)) seeded)
    <> bad_request /\
  log (invest (Request (json_number 1) (json_number 1.5)) seeded) =
    [Connect; BEGIN; SELECT_asset; SELECT_dashboard; UPDATE_assets; ROLLBACK;
     Release] /\
  ~ positive_integer (Value true (Finite 10) (Integer 10)) /\
  status (reply (invest (Request (json_number 1)
                           (Value true (Finite 10) (Integer 10))) seeded))
    = 200.
Proof.
  repeat match goal with |- _ /\ _ => split end.
  - intros (n & z & Hn & Hz & _). vm_compute in Hn. injection Hn as <-.
    unfold Qeq, inject_Z in Hz. cbn in Hz. lia.
  - vm_compute. reflexivity.
  - vm_compute. discriminate.
  - vm_compute. reflexivity.
  - intros (n & z & Hn & _). discriminate.
  - vm_compute. reflexivity.
Qed.

(** C3, amended.  A request is answered with 400 and changes no row when its
    [assetId] is falsy (missing, [null], [false], 0, the empty string), when
    its [tokensToBuy] is missing or a number that is no positive integer, and
    when its [tokensToBuy] is a value from whose text the store reads no
    integer.  The answer is the validation error, and nothing is sent to the
    store, exactly when the guard [!assetId || !tokensToBuy ||
    tokensToBuy <= 0] holds; otherwise, as for 1.5, a connection is taken,
    [BEGIN] is sent, the request is refused inside the transaction with
    another message, and the transaction is rolled back. *)
Theorem invest_rejects_malformed (req : request) (db : database) :
  falsy (assetId req) = true \/
  (numeric (tokensToBuy req) /\ ~ positive_integer (tokensToBuy req)) \/
  (forall d : Z, bound (tokensToBuy req) <> Integer d) ->
  status (reply (invest req db)) = 400 /\
  after (invest req db) = db /\
  (invalid_input req = true ->
   reply (invest req db) = bad_request /\ log (invest req db) = []) /\
  (invalid_input req = false ->
   reply (invest req db) <> bad_request /\
   exists mid : list event,
     forallb reads_or_updates mid = true /\
     log (invest req db) = Connect :: BEGIN :: mid ++ [ROLLBACK; Release]).
Proof.
  intros Hbad.
  assert (status (reply (invest req db)) = 400) as H400.
  { destruct (invest_status req db) as [H200 | H]; [| exact H].
    exfalso.
    destruct (invest_succeeded req db H200)
      as (k & d & asset & dash & w & t & m & Hvalid & Hk & Hd & _).
    destruct Hbad as [Hfalsy | [[Hnum Hnot] | Hnone]].
    - unfold invalid_input in Hvalid. rewrite Hfalsy in Hvalid. discriminate.
    - destruct (tokensToBuy req) as [| n | truthy x r] eqn:Hn;
        [discriminate | | contradiction].
      apply Hnot. exists n, d. split; [reflexivity |].
      apply bound_Number_Integer, int4_in_Some in Hd as [Hd _].
      split; [exact Hd |].
      pose proof (valid_input_positive req n Hvalid Hn) as Hpos.
      rewrite Hd in Hpos. change 0%Q with (inject_Z 0) in Hpos.
      rewrite <- Zlt_Qlt in Hpos. exact Hpos.
    - exact (Hnone d Hd). }
  split; [exact H400 | split; [| split]].
  - apply invest_failed_unchanged. rewrite H400. discriminate.
  - intros Hguard. rewrite invest_guarded by exact Hguard. split; reflexivity.
  - intros Hvalid. split; [apply invest_refused_message, Hvalid |].
    apply invest_thrown_log; [exact Hvalid |]. rewrite H400. discriminate.
Qed.

Lemma invest_rejects_malformed_witness :
  (forall d : Z, bound (tokensToBuy (Request (json_number 1) (json_number 1.5)))
                 <> Integer d) /\
  status (reply (invest (Request (json_number 1) (json_number 1.5)) seeded))
    = 400 /\
  after (invest (Request (json_number 1) (json_number 1.5)) seeded) = seeded /\
  status (reply (invest (Request (json_number 1) (json_number (-2))) seeded))
    = 400 /\
  log (invest (Request (json_number 1) (json_number (-2))) seeded) = [].
Proof.
  assert (forall d : Z,
            bound (tokensToBuy (Request (json_number 1) (json_number 1.5)))
            <> Integer d) as Hnone.
  { intros d. vm_compute. discriminate. }
  split; [exact Hnone |].
  destruct (invest_rejects_malformed
              (Request (json_number 1) (json_number 1.5)) seeded)
    as (H400 & Hsame & _); [right; right; exact Hnone |].
  split; [exact H400 | split; [exact Hsame |]].
  destruct (invest_rejects_malformed
              (Request (json_number 1) (json_number (-2))) seeded)
    as (H400' & _ & Hguard & _).
  { right; left. split; [exact I |].
    intros (n & z & Hn & Hz & Hpos). vm_compute in Hn. injection Hn as <-.
    unfold Qeq, inject_Z in Hz. cbn in Hz. lia. }
  split; [exact H400' |].
  apply Hguard. vm_compute. reflexivity.
Defined.

(** C4, as it is stated, fails.  No asset has the key 999, but with
    [tokensToBuy] at 0 the guard answers first, with its own message.  And
    neither 1.5 nor 2147483648 is the key of an asset, but the store refuses
    both where it expects a 32-bit integer, and the answer carries the text
    of that refusal. *)
Lemma invest_unknown_asset_guarded :
  assets seeded !! 999 = None /\
  invest (Request (json_number 999) (json_number 0)) seeded =
    {| reply := bad_request; after := seeded; log := [] |} /\
  json bad_request <> ErrorJson (Text "Asset not found") /\
  (forall k : Z, ~ (1.5 == inject_Z k)%Q) /\
  reply (invest (Request (json_number 1.5) (json_number 10)) seeded) =
    Response 400 (ErrorJson (DriverText InvalidInteger)) /\
  assets seeded !! 2147483648 = None /\
  reply (invest (Request (json_number 2147483648) (json_number 10)) seeded) =
    Response 400 (ErrorJson (DriverText InvalidInteger)).
Proof.
  repeat split; try (vm_compute; reflexivity).
  - discriminate.
  - intros k Hk. unfold Qeq, inject_Z in Hk. cbn in Hk. lia.
Qed.

(** C4, amended.  For a request that passes the guard: when the store reads
    from [assetId] a 32-bit integer that is the key of no asset, the answer
    is 400 with the message "Asset not found"; when the store reads no
    integer from it, the answer is 400 with the text of the driver; either
    way the transaction, which has only read, is rolled back and the rows
    are as before. *)
Theorem invest_asset_not_found (req : request) (db : database) :
  invalid_input req = false ->
  (forall k : Z,
     bound (assetId req) = Integer k ->
     assets db !! k = None ->
     invest req db =
       {| reply := Response 400 (ErrorJson (Text "Asset not found"));
          after := db;
          log := [Connect; BEGIN; SELECT_asset; ROLLBACK; Release] |}) /\
  (bound (assetId req) = Unreadable ->
   invest req db =
     {| reply := Response 400 (ErrorJson (DriverText InvalidInteger));
        after := db;
        log := [Connect; BEGIN; SELECT_asset; ROLLBACK; Release] |}).
Proof.
  intros Hvalid. rewrite (invest_cases req db Hvalid). split.
  - intros k Hk Hnone. rewrite Hk, Hnone. reflexivity.
  - intros Hk. rewrite Hk. reflexivity.
Qed.

Lemma invest_asset_not_found_witness :
  invest (Request (json_number 999) (json_number 10)) seeded =
    {| reply := Response 400 (ErrorJson (Text "Asset not found"));
       after := seeded;
       log := [Connect; BEGIN; SELECT_asset; ROLLBACK; Release] |}.
Proof.
  apply (invest_asset_not_found
           (Request (json_number 999) (json_number 10)) seeded)
    with (k := 999); vm_compute; reflexivity.
Defined.




(** C6, as it is stated, fails on the seeded rows (wallet 15000.00, asset 1
    at 50.00 with 1000 tokens): 301 tokens cost 15050.00 and the message is
    "Insufficient wallet balance to complete transaction", not "Insufficient
    wallet balance"; 2000 tokens cost 100000.00, but the inventory check
    comes first and answers.  It fails on the doubles as well: at 0.70 a
    token, 3.0000000000000004 tokens cost more than a wallet of 2.10, but
    their product is the double 2.1; the balance check passes, the update of
    the asset is sent and the answer carries the text of the driver. *)
Lemma invest_overdraft_message :
  json (reply (invest (Request (json_number 1) (json_number 301)) seeded)) =
    ErrorJson (Text "Insufficient wallet balance to complete transaction") /\
  json (reply (invest (Request (json_number 1) (json_number 301)) seeded)) <>
    ErrorJson (Text "Insufficient wallet balance") /\
  (15000 < 50 * 2000)%Q /\
  json (reply (invest (Request (json_number 1) (json_number 2000)) seeded)) =
    ErrorJson (Text "Not enough tokens available in this asset") /\
  (2.10 < 0.70 * literal 3.0000000000000004)%Q /\
  totalCost (AssetRow "Corner Kiosk" "Austin, TX" 500 70 1000)
    (Finite (literal 3.0000000000000004)) = parseFloat 210 /\
  invest (Request (json_number 1) (json_number 3.0000000000000004))
    {| dashboard := [DashboardRow 1 210 0 0]; dashboard_id_seq := 2;
       assets := <[1 := AssetRow "Corner Kiosk" "Austin, TX" 500 70 1000]> ∅;
       assets_id_seq := 2 |} =
    rolled_back
      {| dashboard := [DashboardRow 1 210 0 0]; dashboard_id_seq := 2;
         assets := <[1 := AssetRow "Corner Kiosk" "Austin, TX" 500 70 1000]> ∅;
         assets_id_seq := 2 |}
      (DriverText InvalidInteger)
      [SELECT_asset; SELECT_dashboard; UPDATE_assets].
Proof.
  repeat split; try (vm_compute; reflexivity).
  vm_compute. discriminate.
Qed.

(** C6, amended.  For a request that passes the guard, names an existing
    asset and asks for no more tokens than it has: when the product of the
    price and [tokensToBuy], rounded to a double, exceeds the wallet balance
    of the first dashboard row, the answer is 400 with the message
    "Insufficient wallet balance to complete transaction"; no [UPDATE] was
    sent, the transaction is rolled back and the rows are as before. *)
Theorem invest_insufficient_balance (req : request) (db : database) (k : Z)
    (asset : asset_row) (dash : dashboard_row) :
  invalid_input req = false ->
  bound (assetId req) = Integer k ->
  assets db !! k = Some asset ->
  flt (of_integer (tokens_available asset)) (ToNumber (tokensToBuy req))
    = false ->
  head (dashboard db) = Some dash ->
  flt (parseFloat (wallet_balance dash))
      (fmul (parseFloat (price_per_token asset)) (ToNumber (tokensToBuy req)))
    = true ->
  invest req db =
    {| reply := Response 400
                  (ErrorJson
                     (Text "Insufficient wallet balance to complete transaction"));
       after := db;
       log := [Connect; BEGIN; SELECT_asset; SELECT_dashboard; ROLLBACK;
               Release] |}.
Proof.
  intros Hvalid Hk Hsome Htok Hrows Hlt.
  rewrite (invest_cases req db Hvalid). cbv zeta.
  rewrite Hk, Hsome, Htok.
  destruct (dashboard db) as [| dash0 rest]; [discriminate |].
  cbn in Hrows. injection Hrows as ->.
  unfold totalCost. rewrite Hlt. reflexivity.
Qed.

Lemma invest_insufficient_balance_witness :
  invest (Request (json_number 1) (json_number 301)) seeded =
    {| reply := Response 400
                  (ErrorJson
                     (Text "Insufficient wallet balance to complete transaction"));
       after := seeded;
       log := [Connect; BEGIN; SELECT_asset; SELECT_dashboard; ROLLBACK;
               Release] |}.
Proof.
  apply (invest_insufficient_balance
           (Request (json_number 1) (json_number 301)) seeded 1
           (AssetRow "Skyline Apartments" "New York, NY" 850 5000 1000)
           (DashboardRow 1 1500000 520000 43550));
    vm_compute; reflexivity.
Defined.

(** C10.  With no row in the dashboard table no request is answered with 200
    and none changes a row; a request that passes the guard, names an
    existing asset and asks for no more tokens than it has is answered with
    400 from the read of [wallet_balance] off the missing row, after the two
    reads and before any [UPDATE], and the transaction is rolled back. *)
Theorem invest_without_dashboard (req : request) (db : database) :
  dashboard db = [] ->
  status (reply (invest req db)) = 400 /\
  after (invest req db) = db /\
  forall (a n : Q) (k : Z) (asset : asset_row),
    invalid_input req = false ->
    assetId req = Number a ->
    tokensToBuy req = Number n ->
    int4_in a = Some k ->
    assets db !! k = Some asset ->
    (n <= inject_Z (tokens_available asset))%Q ->
    invest req db =
      {| reply := Response 400 (ErrorJson EngineText);
         after := db;
         log := [Connect; BEGIN; SELECT_asset; SELECT_dashboard; ROLLBACK;
                 Release] |}.
Proof.
  intros Hrows.
  assert (status (reply (invest req db)) = 400) as H400.
  { destruct (invest_status req db) as [H200 | H]; [| exact H].
    destruct (invest_succeeded req db H200)
      as (k & d & asset & dash & w & t & m & _ & _ & _ & _ & _ & Hdash & _).
    rewrite Hrows in Hdash. discriminate. }
  split; [exact H400 | split].
  - apply invest_failed_unchanged. rewrite H400. discriminate.
  - intros a n k asset Hvalid Ha Hn Hk Hsome Hle.
    rewrite (invest_cases req db Hvalid). cbv zeta.
    rewrite Ha, (bound_Number a k Hk), Hsome, Hn, Hrows.
    change (ToNumber (Number n)) with (Finite n).
    unfold of_integer. rewrite flt_Finite, (Qlt_bool_false_intro _ _ Hle).
    reflexivity.
Qed.

Lemma invest_without_dashboard_witness :
  invest (Request (Number 1) (Number 10))
         {| dashboard := []; dashboard_id_seq := 1;
            assets := assets seeded; assets_id_seq := 5 |} =
    {| reply := Response 400 (ErrorJson EngineText);
       after := {| dashboard := []; dashboard_id_seq := 1;
                   assets := assets seeded; assets_id_seq := 5 |};
       log := [Connect; BEGIN; SELECT_asset; SELECT_dashboard; ROLLBACK;
               Release] |}.
Proof.
  apply (invest_without_dashboard (Request (Number 1) (Number 10))
           {| dashboard := []; dashboard_id_seq := 1;
              assets := assets seeded; assets_id_seq := 5 |} eq_refl)
    with (a := 1%Q) (n := 10%Q) (k := 1)
         (asset := AssetRow "Skyline Apartments" "New York, NY" 850 5000 1000);
    vm_compute; first [reflexivity | discriminate].
Defined.

(** ** Requests in flight together *)


Lemma consistent_seeded : consistent seeded.
Proof.
  split.
  - unfold seeded. cbn [assets].
    repeat (apply map_Forall_insert_2; [cbn; lia |]). apply map_Forall_empty.
  - repeat constructor. cbn. lia.
Qed.

(** C7.  The invariant does not survive requests that are in flight
    together.  On the seeded rows asset 1 has 1000 tokens at 50.00 and the
    wallet holds 15000.00.  Four requests for 300 tokens each have their two
    reads answered before the first of their updates arrives: each finds
    1000 tokens and 15000.00, each is answered with 200, and the asset is
    left with -200 tokens, where the same four requests served one after the
    other leave 700.  So it is with two requests for 6 of 10 tokens: both
    are answered with 200 and -2 tokens are left. *)
Theorem invest_in_flight_oversells :
  let r := Request (json_number 1) (json_number 300) in
  let six := Request (json_number 1) (json_number 6) in
  consistent seeded /\
  Forall (fun behind : list request =>
            status (reply (invest_around r (invest_nested behind) seeded))
            = 200)
         [[r; r; r]; [r; r]; [r]; []] /\
  tokens_available <$> (assets (invest_nested [r; r; r; r] seeded) !! 1)
    = Some (-200) /\
  ~ consistent (invest_nested [r; r; r; r] seeded) /\
  tokens_available <$> (assets (invest_all [r; r; r; r] seeded) !! 1)
    = Some 700 /\
  consistent ten_tokens /\
  status (reply (invest_around six (invest_nested [six]) ten_tokens)) = 200 /\
  status (reply (invest_around six (invest_nested []) ten_tokens)) = 200 /\
  tokens_available <$> (assets (invest_nested [six; six] ten_tokens) !! 1)
    = Some (-2) /\
  ~ consistent (invest_nested [six; six] ten_tokens).
Proof.
  cbv zeta.
  assert (forall db : database,
            tokens_available <$> (assets db !! 1) = Some (-200) \/
            tokens_available <$> (assets db !! 1) = Some (-2) ->
            ~ consistent db) as Hbroken.
  { intros db Hlook [Hassets _].
    destruct (assets db !! 1) as [asset |] eqn:Hasset;
      [| destruct Hlook; discriminate].
    specialize (Hassets 1 asset Hasset). cbn in Hassets, Hlook.
    destruct Hlook as [[= Hlook] | [= Hlook]]; lia. }
  repeat match goal with |- _ /\ _ => split end.
  - exact consistent_seeded.
  - repeat constructor; vm_compute; reflexivity.
  - vm_compute. reflexivity.
  - apply Hbroken. left. vm_compute. reflexivity.
  - vm_compute. reflexivity.
  - split.
    + unfold ten_tokens. cbn [assets].
      apply map_Forall_insert_2; [cbn; lia | apply map_Forall_empty].
    + repeat constructor. cbn. lia.
  - vm_compute. reflexivity.
  - vm_compute. reflexivity.
  - vm_compute. reflexivity.
  - apply Hbroken. right. vm_compute. reflexivity.
Qed.

(** ** Errors of the store *)





(** ** Start-up *)

Lemma insert_asset_fresh (x : dummy_asset) (s : session) (a p : decimal)
    (n : Z) :
  numeric_5_2 (dummy_apy x) = Some a ->
  numeric_15_2 (dummy_price x) = Some p ->
  read_number (dummy_tokens x) = Integer n ->
  assets (store s) !! assets_id_seq (store s) = None ->
  insert_asset x s =
    (inr tt,
     {| store :=
          {| dashboard := dashboard (store s);
             dashboard_id_seq := dashboard_id_seq (store s);
             assets := <[assets_id_seq (store s) :=
                          AssetRow (dummy_name x) (dummy_location x) a p n]>
                       (assets (store s));
             assets_id_seq := assets_id_seq (store s) + 1 |};
        restore_point := restore_point s;
        issued := issued s ++ [INSERT_asset] |}).
Proof.
  intros Ha Hp Hn Hfresh. unfold insert_asset.
  rewrite Ha, Hp, Hn, Hfresh. reflexivity.
Qed.

Lemma seed_assets_run (s : session) :
  assets (store s) = ∅ ->
  exists s',
    for_of dummyAssets insert_asset s = (inr tt, s') /\
    store s' =
      {| dashboard := dashboard (store s);
         dashboard_id_seq := dashboard_id_seq (store s);
         assets := seeded_assets (assets_id_seq (store s));
         assets_id_seq := assets_id_seq (store s) + 4 |}.
Proof.
  intros Hempty. eexists. unfold dummyAssets, for_of, mbind, client_bind.
  erewrite insert_asset_fresh;
    [| vm_compute; reflexivity .. | by rewrite Hempty, lookup_empty].
  erewrite insert_asset_fresh;
    [| vm_compute; reflexivity ..
     | cbn; rewrite Hempty, lookup_insert_ne by lia; apply lookup_empty].
  erewrite insert_asset_fresh;
    [| vm_compute; reflexivity ..
     | cbn; rewrite Hempty, !lookup_insert_ne by lia; apply lookup_empty].
  erewrite insert_asset_fresh;
    [| vm_compute; reflexivity ..
     | cbn; rewrite Hempty, !lookup_insert_ne by lia; apply lookup_empty].
  split; [reflexivity |]. cbn. rewrite Hempty. unfold seeded_assets.
  replace (assets_id_seq (store s) + 1 + 1) with (assets_id_seq (store s) + 2)
    by lia.
  replace (assets_id_seq (store s) + 2 + 1) with (assets_id_seq (store s) + 3)
    by lia.
  replace (assets_id_seq (store s) + 3 + 1) with (assets_id_seq (store s) + 4)
    by lia.
  reflexivity.
Qed.

Lemma bind_returns {A B : Type} (m : client A) (k : A -> client B)
    (s s' : session) (x : A) :
  m s = (inr x, s') -> (m ≫= k) s = k x s'.
Proof. intros H. unfold mbind, client_bind. rewrite H. reflexivity. Qed.

Lemma seed_dashboard_run (s : session) :
  exists s',
    (if Z.of_nat (length (dashboard (store s))) =? 0
     then insert_dashboard 15000.00 5200.00 435.50
     else mret tt) s = (inr tt, s') /\
    store s' =
      {| dashboard :=
           match dashboard (store s) with
           | [] => [DashboardRow (dashboard_id_seq (store s))
                      1500000 520000 43550]
           | _ => dashboard (store s)
           end;
         dashboard_id_seq :=
           match dashboard (store s) with
           | [] => dashboard_id_seq (store s) + 1
           | _ => dashboard_id_seq (store s)
           end;
         assets := assets (store s);
         assets_id_seq := assets_id_seq (store s) |}.
Proof.
  destruct (dashboard (store s)) as [| row rows] eqn:Hd.
  - eexists. cbn [length]. change (Z.of_nat 0 =? 0) with true.
    unfold insert_dashboard. cbv beta iota zeta.
    change (numeric_in 15 15000.00) with (Some (Hundredths 1500000)).
    change (numeric_in 15 5200.00) with (Some (Hundredths 520000)).
    change (numeric_in 15 435.50) with (Some (Hundredths 43550)).
    cbv beta iota. rewrite Hd. cbn. split; reflexivity.
  - eexists. split; [reflexivity |]. cbn. rewrite <- Hd.
    destruct (store s). reflexivity.
Qed.

Lemma seed_assets_stage (s : session) :
  exists s',
    (if Z.of_nat (size (assets (store s))) =? 0
     then for_of dummyAssets insert_asset
     else mret tt) s = (inr tt, s') /\
    store s' =
      {| dashboard := dashboard (store s);
         dashboard_id_seq := dashboard_id_seq (store s);
         assets :=
           if decide (assets (store s) = ∅)
           then seeded_assets (assets_id_seq (store s))
           else assets (store s);
         assets_id_seq :=
           if decide (assets (store s) = ∅)
           then assets_id_seq (store s) + 4
           else assets_id_seq (store s) |}.
Proof.
  destruct (decide (assets (store s) = ∅)) as [Hempty | Hne].
  - rewrite Hempty, map_size_empty. change (Z.of_nat 0 =? 0) with true.
    cbv beta iota.
    destruct (seed_assets_run s Hempty) as (s' & Hrun & Hstore).
    exists s'. split; [exact Hrun | exact Hstore].
  - destruct (Z.of_nat (size (assets (store s))) =? 0) eqn:Hsize.
    + exfalso. apply Hne. apply map_size_empty_iff.
      apply Z.eqb_eq in Hsize. lia.
    + eexists. split; [reflexivity |]. destruct (store s). reflexivity.
Qed.

Lemma seedData_spec (db : database) :
  seedData db =
    {| dashboard :=
         match dashboard db with
         | [] => [DashboardRow (dashboard_id_seq db) 1500000 520000 43550]
         | _ => dashboard db
         end;
       dashboard_id_seq :=
         match dashboard db with
         | [] => dashboard_id_seq db + 1
         | _ => dashboard_id_seq db
         end;
       assets :=
         if decide (assets db = ∅) then seeded_assets (assets_id_seq db)
         else assets db;
       assets_id_seq :=
         if decide (assets db = ∅) then assets_id_seq db + 4
         else assets_id_seq db |}.
Proof.
  unfold seedData, seed_queries.
  erewrite bind_returns by reflexivity.
  destruct (seed_dashboard_run
              (sent COUNT_dashboard
                 {| store := db; restore_point := None; issued := [] |}))
    as (s1 & Hrun1 & Hstore1).
  erewrite bind_returns by exact Hrun1.
  erewrite bind_returns by reflexivity.
  destruct (seed_assets_stage (sent COUNT_assets s1)) as (s2 & Hrun2 & Hstore2).
  cbn [sent store] in *.
  rewrite Hrun2. cbn [snd]. rewrite Hstore2, Hstore1. reflexivity.
Qed.


Lemma seeded_assets_non_empty (s : Z) : seeded_assets s <> ∅.
Proof. unfold seeded_assets. apply insert_non_empty. Qed.


Lemma createTablesQuery_catalog_of (db : database) :
  createTablesQuery (catalog_of db) = db.
Proof. destruct db. reflexivity. Qed.




(** * Further properties of the handlers and of start-up *)

(** ** The connection *)

(** X1.  Either the guard answers and nothing is sent, or a client is taken,
    [BEGIN] is sent, then only reads and updates, then [COMMIT] when the
    answer is 200 and [ROLLBACK] otherwise, and the client is released; a
    purchase report is the body of a 200 and of nothing else. *)
Theorem invest_log_shape (req : request) (db : database) :
  ((log (invest req db) = [] /\ reply (invest req db) = bad_request) \/
   exists mid : list event,
     forallb reads_or_updates mid = true /\
     log (invest req db) =
       Connect :: BEGIN :: mid ++
       [if decide (status (reply (invest req db)) = 200) then COMMIT
        else ROLLBACK; Release]) /\
  match json (reply (invest req db)) with
  | InvestJson _ _ _ _ => status (reply (invest req db)) = 200
  | ErrorJson _ => status (reply (invest req db)) = 400
  end.
Proof.
  destruct (invalid_input req) eqn:H.
  - rewrite invest_guarded by exact H. split; [left; split |]; reflexivity.
  - rewrite (invest_runs req db H).
    destruct (transaction _ _ (connected db)) as [[err | data] s1] eqn:Ht.
    + apply transaction_throws in Ht as (_ & mid & Hlog & Hmid).
      split; [right; exists mid; split; [exact Hmid |] | reflexivity].
      cbn. rewrite Hlog. cbn. rewrite <- !app_assoc. reflexivity.
    + apply transaction_returns in Ht
        as (k & d & asset & dash & w & t & m & _ & _ & _ & _ & _ & _ & _ & _
            & _ & _ & -> & _ & _ & Hlog).
      split; [right | reflexivity].
      exists [SELECT_asset; SELECT_dashboard; UPDATE_assets; UPDATE_dashboard].
      split; [reflexivity |]. cbn. rewrite Hlog. reflexivity.
Qed.

(** ** What a purchase leaves alone *)

(** The store reads from the value the integer that the value converts
    to. *)
Lemma agreed_Number (n : Q) : agreed (Number n).
Proof.
  intros d Hd. exists n. split; [reflexivity |].
  apply bound_Number_Integer, int4_in_Some in Hd as [Hd _]. exact Hd.
Qed.

Lemma agreed_numeric (v : field) : numeric v -> agreed v.
Proof.
  destruct v as [| n |]; [| intros _; apply agreed_Number | contradiction].
  intros _ d Hd. discriminate.
Qed.

(** X2.  A request adds and removes no asset and no dashboard row, keeps
    every key, name, location, yield and price and both sequences, and keeps
    the ids of the dashboard rows, though not their order.  When the store
    reads from [tokensToBuy] the integer that it converts to, as it does
    for a number, the request raises the [tokens_available] of no asset. *)
Theorem invest_frame (req : request) (db : database) :
  dom (assets (after (invest req db))) = dom (assets db) /\
  (forall (k : Z) (asset' : asset_row),
     assets (after (invest req db)) !! k = Some asset' ->
     exists asset : asset_row,
       assets db !! k = Some asset /\
       name asset' = name asset /\ location asset' = location asset /\
       apy asset' = apy asset /\
       price_per_token asset' = price_per_token asset /\
       (agreed (tokensToBuy req) ->
        tokens_available asset' <= tokens_available asset)) /\
  d_id <$> dashboard (after (invest req db)) ≡ₚ d_id <$> dashboard db /\
  length (dashboard (after (invest req db))) = length (dashboard db) /\
  dashboard_id_seq (after (invest req db)) = dashboard_id_seq db /\
  assets_id_seq (after (invest req db)) = assets_id_seq db.
Proof.
  destruct (invest_status req db) as [H200 | H400].
  - destruct (invest_succeeded req db H200)
      as (k & d & asset & dash & w & t & m & Hvalid & Hk & Hd & Hasset & _ & _
          & _ & _ & _ & _ & _ & ->).
    unfold purchased. cbn [after assets dashboard dashboard_id_seq
                             assets_id_seq].
    repeat match goal with |- _ /\ _ => split end; try reflexivity.
    + apply dom_alter_L.
    + intros j asset' Hj. destruct (decide (k = j)) as [<- | Hne].
      * rewrite lookup_alter_eq, Hasset in Hj. cbn in Hj. injection Hj as <-.
        exists asset. split; [exact Hasset |]. cbn.
        repeat (split; [reflexivity |]).
        intros Hagreed. destruct (Hagreed d Hd) as (n & Hn & Hnd).
        unfold invalid_input in Hvalid.
        apply orb_false_elim in Hvalid as [_ Hle].
        unfold le_zero in Hle. rewrite Hn in Hle. unfold fle in Hle.
        assert (0 < d); [| lia].
        apply Z.lt_nge. intros Hneg. rewrite Zle_Qle in Hneg.
        rewrite <- Hnd in Hneg. apply Qle_bool_iff in Hneg.
        change (inject_Z 0) with 0%Q in Hneg. congruence.
      * rewrite lookup_alter_ne in Hj by exact Hne.
        exists asset'. repeat split; try assumption; try reflexivity.
    + apply rewritten_ids.
    + apply rewritten_length.
  - rewrite invest_failed_unchanged by (rewrite H400; discriminate).
    repeat match goal with |- _ /\ _ => split end; try reflexivity.
    intros k asset' Hk. exists asset'.
    repeat split; try assumption; try reflexivity.
Qed.

(** ** When a purchase goes through *)

(** X4.  A request is answered with 200 as soon as it passes the guard, the
    store reads integers [k] and [d] from its two fields, [k] is the key of
    an asset with no fewer tokens than [tokensToBuy], the first dashboard
    row's balance is not below the cost, [d] less tokens are a 32-bit
    integer again, and the three new amounts fit their columns; the rows
    left are those of the purchase and the transaction is committed. *)
Theorem invest_succeeds (req : request) (db : database) (k d : Z)
    (asset : asset_row) (dash : dashboard_row) (w t m : decimal) :
  invalid_input req = false ->
  bound (assetId req) = Integer k ->
  bound (tokensToBuy req) = Integer d ->
  assets db !! k = Some asset ->
  flt (of_integer (tokens_available asset)) (ToNumber (tokensToBuy req))
    = false ->
  head (dashboard db) = Some dash ->
  flt (parseFloat (wallet_balance dash))
      (totalCost asset (ToNumber (tokensToBuy req))) = false ->
  int4 (tokens_available asset - d) = true ->
  numeric_15_2 (fsub (parseFloat (wallet_balance dash))
                  (totalCost asset (ToNumber (tokensToBuy req)))) = Some w ->
  numeric_15_2 (fadd (parseFloat (total_investment dash))
                  (totalCost asset (ToNumber (tokensToBuy req)))) = Some t ->
  numeric_15_2 (fadd (parseFloat (monthly_yield dash))
                  (addedMonthlyYield asset
                     (totalCost asset (ToNumber (tokensToBuy req)))))
    = Some m ->
  invest req db =
    {| reply :=
         Response 200
           (InvestJson (totalCost asset (ToNumber (tokensToBuy req)))
              (fsub (parseFloat (wallet_balance dash))
                 (totalCost asset (ToNumber (tokensToBuy req))))
              (fadd (parseFloat (total_investment dash))
                 (totalCost asset (ToNumber (tokensToBuy req))))
              (fadd (parseFloat (monthly_yield dash))
                 (addedMonthlyYield asset
                    (totalCost asset (ToNumber (tokensToBuy req))))));
       after := purchased db k d dash w t m;
       log := [Connect; BEGIN; SELECT_asset; SELECT_dashboard; UPDATE_assets;
               UPDATE_dashboard; COMMIT; Release] |}.
Proof.
  intros Hvalid Hk Hd Hasset Htok Hdash Hbal Hrange Hw Ht Hm.
  rewrite (invest_cases req db Hvalid). cbv zeta.
  rewrite Hk, Hasset, Htok.
  destruct (dashboard db) as [| dash0 rest]; [discriminate |].
  cbn in Hdash. injection Hdash as ->.
  rewrite Hbal, Hd, Hrange, Hw, Ht, Hm. reflexivity.
Qed.

Lemma invest_succeeds_witness :
  invest (Request (json_number 1) (json_number 10)) seeded =
    {| reply :=
         Response 200
           (InvestJson (Finite 500) (Finite 14500) (Finite 5700)
              (Finite (literal 439.0416666666667)));
       after :=
         {| dashboard := [DashboardRow 1 1450000 570000 43904];
            dashboard_id_seq := 2;
            assets :=
              <[1 := AssetRow "Skyline Apartments" "New York, NY" 850 5000 990]>
                (assets seeded);
            assets_id_seq := 5 |};
       log := [Connect; BEGIN; SELECT_asset; SELECT_dashboard; UPDATE_assets;
               UPDATE_dashboard; COMMIT; Release] |}.
Proof.
  rewrite (invest_succeeds (Request (json_number 1) (json_number 10)) seeded
             1 10 (AssetRow "Skyline Apartments" "New York, NY" 850 5000 1000)
             (DashboardRow 1 1500000 520000 43550)
             1450000 570000 43904);
    vm_compute; reflexivity.
Defined.

(** ** Two requests for the same stock *)



(** ** The read handlers *)

(** X7.  On a dashboard table of one row, after a request answered with 200,
    [GET /dashboard] answers 200 with that row under its id, holding the
    [remainingBalance], the [newTotalInvestment] and the [newMonthlyYield]
    of that answer, each as the store read it at two fractional digits. *)
Theorem get_dashboard_after_invest (req : request) (db : database)
    (dash : dashboard_row) :
  status (reply (invest req db)) = 200 ->
  dashboard db = [dash] ->
  exists (w t m : decimal)
         (spent remainingBalance newTotalInvestment newMonthlyYield : number),
    json (reply (invest req db)) =
      InvestJson spent remainingBalance newTotalInvestment newMonthlyYield /\
    numeric_15_2 remainingBalance = Some w /\
    numeric_15_2 newTotalInvestment = Some t /\
    numeric_15_2 newMonthlyYield = Some m /\
    get_dashboard (after (invest req db)) =
      (200, DashboardJson (DashboardRow (d_id dash) w t m)).
Proof.
  intros H200 Hrows.
  destruct (invest_succeeded req db H200)
    as (k & d & asset & dash0 & w & t & m & _ & _ & _ & _ & _ & Hdash & _ & _
        & Hw & Ht & Hm & ->).
  rewrite Hrows in Hdash. injection Hdash as <-.
  exists w, t, m. eexists _, _, _, _.
  cbn [reply after json].
  repeat match goal with |- _ /\ _ => split end;
    try eassumption; try reflexivity.
  unfold get_dashboard, select_dashboard, pooled, purchased. cbn.
  rewrite Hrows, rewritten_single. reflexivity.
Qed.

Lemma get_dashboard_after_invest_witness :
  status (reply (invest (Request (json_number 1) (json_number 10)) seeded)) = 200
  /\ get_dashboard (after (invest (Request (json_number 1) (json_number 10))
                             seeded)) =
       (200, DashboardJson (DashboardRow 1 1450000 570000 43904)).
Proof.
  split; [vm_compute; reflexivity |].
  destruct (get_dashboard_after_invest
              (Request (json_number 1) (json_number 10)) seeded
              (DashboardRow 1 1500000 520000 43550))
    as (w & t & m & spent & remaining & total & monthly & _ & _ & _ & _ & _);
    [vm_compute; reflexivity | reflexivity |].
  vm_compute. reflexivity.
Defined.

(** *** The listing *)

#[local] Instance id_le_transitive : Transitive id_le.
Proof. intros x y z. unfold id_le. lia. Qed.

#[local] Instance id_le_total : Total id_le.
Proof. intros x y. unfold id_le. lia. Qed.

Lemma StronglySorted_le_lt (l : list Z) :
  StronglySorted Z.le l -> NoDup l -> StronglySorted Z.lt l.
Proof.
  induction 1 as [| x l Hl IH Hx]; intros Hnd; [constructor |].
  apply NoDup_cons in Hnd as [Hnot Hnd].
  constructor; [exact (IH Hnd) |].
  rewrite Forall_forall in Hx |- *. intros y Hy.
  assert (x <> y) by (intros ->; exact (Hnot Hy)).
  specialize (Hx y Hy). lia.
Qed.

Lemma listing_ids_sorted (m : gmap Z asset_row) :
  StronglySorted Z.le (merge_sort id_le (map_to_list m)).*1.
Proof.
  apply StronglySorted_fmap with (R1 := id_le).
  - intros x y Hxy. exact Hxy.
  - apply StronglySorted_merge_sort; apply _.
Qed.

Lemma listing_ids_dom (m : gmap Z asset_row) (k : Z) :
  k ∈ (merge_sort id_le (map_to_list m)).*1 <-> k ∈ dom m.
Proof.
  rewrite merge_sort_Permutation, elem_of_dom, list_elem_of_fmap. split.
  - intros ([k' x] & -> & Hin). apply elem_of_map_to_list in Hin. by exists x.
  - intros [x Hx]. exists (k, x). split; [done |]. by apply elem_of_map_to_list.
Qed.

Lemma listing_ids_NoDup (m : gmap Z asset_row) :
  NoDup (merge_sort id_le (map_to_list m)).*1.
Proof. rewrite merge_sort_Permutation. apply NoDup_fst_map_to_list. Qed.

(** X8.  [GET /assets] answers 200 with every asset of the table exactly
    once, each under its key, in strictly ascending order of the keys. *)
Theorem get_assets_listing (db : database) :
  exists rows : list (Z * asset_row),
    get_assets db = (200, AssetsJson rows) /\
    (forall (k : Z) (asset : asset_row),
       (k, asset) ∈ rows <-> assets db !! k = Some asset) /\
    StronglySorted Z.lt rows.*1 /\
    length rows = size (assets db).
Proof.
  exists (merge_sort id_le (map_to_list (assets db))).
  split; [reflexivity |]. split; [| split].
  - intros k asset. rewrite merge_sort_Permutation. apply elem_of_map_to_list.
  - apply StronglySorted_le_lt;
      [apply listing_ids_sorted | apply listing_ids_NoDup].
  - rewrite merge_sort_Permutation. apply length_map_to_list.
Qed.

Lemma listing_ids_unique (m1 m2 : gmap Z asset_row) :
  dom m1 = dom m2 ->
  (merge_sort id_le (map_to_list m1)).*1 =
  (merge_sort id_le (map_to_list m2)).*1.
Proof.
  intros Hdom.
  apply (StronglySorted_unique Z.le); try apply listing_ids_sorted.
  apply NoDup_Permutation; try apply listing_ids_NoDup.
  intros k. rewrite !listing_ids_dom, Hdom. reflexivity.
Qed.

Lemma invest_dom (req : request) (db : database) :
  dom (assets (after (invest req db))) = dom (assets db).
Proof.
  destruct (invest_status req db) as [H200 | H400].
  - destruct (invest_succeeded req db H200)
      as (k & d & asset & dash & w & t & m & _ & _ & _ & _ & _ & _ & _ & _ & _
          & _ & _ & ->).
    apply dom_alter_L.
  - rewrite invest_failed_unchanged by (rewrite H400; discriminate).
    reflexivity.
Qed.

Lemma invest_all_dom (reqs : list request) (db : database) :
  dom (assets (invest_all reqs db)) = dom (assets db).
Proof.
  revert db. induction reqs as [| req reqs IH]; intros db; [reflexivity |].
  change (invest_all (req :: reqs) db)
    with (invest_all reqs (after (invest req db))).
  rewrite IH. apply invest_dom.
Qed.

(** X9.  Whatever requests are served in between, [GET /assets] lists the
    same keys in the same order. *)
Theorem get_assets_ids_stable (reqs : list request) (db : database) :
  listed_ids (get_assets (invest_all reqs db)) = listed_ids (get_assets db).
Proof.
  unfold listed_ids, get_assets, select_assets, pooled. cbn.
  apply listing_ids_unique, invest_all_dom.
Qed.

(** ** Start-up, again *)




Lemma seedData_keeps (db : database) :
  dashboard db <> [] -> assets db <> ∅ -> seedData db = db.
Proof.
  intros Hd Ha. rewrite seedData_spec.
  destruct (dashboard db) as [| row rows] eqn:Hrows; [done |].
  destruct (decide (assets db = ∅)); [done |].
  rewrite <- Hrows. destruct db. reflexivity.
Qed.

Lemma started_has_rows (c : cluster) :
  dashboard (started c) <> [] /\ assets (started c) <> ∅.
Proof.
  unfold started. rewrite seedData_spec. cbn [dashboard assets]. split.
  - destruct (dashboard _); discriminate.
  - destruct (decide _) as [_ | Hne];
      [apply seeded_assets_non_empty | exact Hne].
Qed.

Lemma invest_rows (req : request) (db : database) :
  length (dashboard (after (invest req db))) = length (dashboard db).
Proof.
  destruct (invest_status req db) as [H200 | H400].
  - destruct (invest_succeeded req db H200)
      as (k & d & asset & dash & w & t & m & _ & _ & _ & _ & _ & _ & _ & _ & _
          & _ & _ & ->).
    apply rewritten_length.
  - rewrite invest_failed_unchanged by (rewrite H400; discriminate).
    reflexivity.
Qed.

Lemma invest_all_has_rows (reqs : list request) (db : database) :
  dashboard db <> [] /\ assets db <> ∅ ->
  dashboard (invest_all reqs db) <> [] /\ assets (invest_all reqs db) <> ∅.
Proof.
  intros [Hd Ha]. split.
  - assert (length (dashboard (invest_all reqs db)) = length (dashboard db))
      as Hlen.
    { clear Hd Ha. revert db.
      induction reqs as [| req reqs IH]; intros db; [reflexivity |].
      change (invest_all (req :: reqs) db)
        with (invest_all reqs (after (invest req db))).
      rewrite IH. apply invest_rows. }
    intros E. rewrite E in Hlen. destruct (dashboard db); [done | discriminate].
  - intros E. apply Ha. apply dom_empty_iff_L.
    rewrite <- (invest_all_dom reqs db), E. apply dom_empty_L.
Qed.

(** X11.  Once [initDB] has run, and whatever requests were served since,
    running [initDB] again changes nothing: no row is inserted, none is
    reset to its seed. *)
Theorem initDB_keeps_ledger (c : cluster) (reqs : list request) :
  initDB (Some (catalog_of (invest_all reqs (started c)))) =
  Some (catalog_of (invest_all reqs (started c))).
Proof.
  unfold initDB. cbn [ensureDatabaseExists].
  rewrite createTablesQuery_catalog_of.
  destruct (invest_all_has_rows reqs (started c) (started_has_rows c))
    as [Hd Ha].
  rewrite (seedData_keeps _ Hd Ha). reflexivity.
Qed.

(** X12.  Once [initDB] has run, and whatever requests were served since,
    the dashboard table has a row: [GET /dashboard] answers with a row, never
    with [{}], and no purchase request is answered with the text of a
    [TypeError]. *)
Theorem started_dashboard_row (c : cluster) (reqs : list request) :
  (exists row : dashboard_row,
     get_dashboard (invest_all reqs (started c)) = (200, DashboardJson row)) /\
  forall req : request,
    json (reply (invest req (invest_all reqs (started c)))) <>
      ErrorJson EngineText.
Proof.
  destruct (invest_all_has_rows reqs (started c) (started_has_rows c))
    as [Hd _].
  set (db := invest_all reqs (started c)) in *. clearbody db. split.
  - unfold get_dashboard, select_dashboard, pooled. cbn.
    destruct (dashboard db) as [| row rows]; [done |]. by exists row.
  - intros req.
    destruct (invalid_input req) eqn:H.
    + rewrite invest_guarded by exact H. discriminate.
    + rewrite (invest_cases req db H). cbv zeta.
      destruct (dashboard db) as [| dash rest]; [done |].
      repeat match goal with
             | |- context [match ?x with _ => _ end] => destruct x
             end;
        unfold rolled_back; cbn; discriminate.
Qed.

(** ** Two purchases, in either order *)

Lemma take_tokens_commute (m : gmap Z asset_row) (k1 k2 d1 d2 : Z) :
  alter (take_tokens d2) k2 (alter (take_tokens d1) k1 m) =
  alter (take_tokens d1) k1 (alter (take_tokens d2) k2 m).
Proof.
  apply map_eq. intros j. rewrite !lookup_alter.
  repeat case_decide; subst; try congruence;
    destruct (m !! j) as [x |]; cbn; try reflexivity.
  unfold take_tokens. cbn. do 2 f_equal. lia.
Qed.

(** X13.  When two requests are answered with 200 in one order and also in
    the other, both orders leave the same assets. *)
Theorem invest_commute (r1 r2 : request) (db : database) :
  status (reply (invest r1 db)) = 200 ->
  status (reply (invest r2 (after (invest r1 db)))) = 200 ->
  status (reply (invest r2 db)) = 200 ->
  status (reply (invest r1 (after (invest r2 db)))) = 200 ->
  assets (invest_all [r1; r2] db) = assets (invest_all [r2; r1] db).
Proof.
  intros H1 H12 H2 H21. cbn [invest_all foldl].
  destruct (invest_succeeded r1 db H1)
    as (k1 & d1 & a1 & dash1 & w1 & t1 & m1 & _ & Hk1 & Hd1 & _ & _ & _ & _ & _
        & _ & _ & _ & E1).
  destruct (invest_succeeded r2 db H2)
    as (k2 & d2 & a2 & dash2 & w2 & t2 & m2 & _ & Hk2 & Hd2 & _ & _ & _ & _ & _
        & _ & _ & _ & E2).
  destruct (invest_succeeded r2 _ H12)
    as (k2' & d2' & a2' & dash2' & w2' & t2' & m2' & _ & Hk2' & Hd2' & _ & _
        & _ & _ & _ & _ & _ & _ & E12).
  destruct (invest_succeeded r1 _ H21)
    as (k1' & d1' & a1' & dash1' & w1' & t1' & m1' & _ & Hk1' & Hd1' & _ & _
        & _ & _ & _ & _ & _ & _ & E21).
  rewrite E12, E21. cbn [after]. rewrite E1, E2. cbn [after].
  unfold purchased. cbn [assets].
  assert (k1' = k1) as -> by congruence. assert (k2' = k2) as -> by congruence.
  assert (d1' = d1) as -> by congruence. assert (d2' = d2) as -> by congruence.
  apply take_tokens_commute.
Qed.

Lemma invest_commute_witness :
  assets (invest_all [Request (json_number 1) (json_number 10);
                      Request (json_number 2) (json_number 5)] seeded) =
  assets (invest_all [Request (json_number 2) (json_number 5);
                      Request (json_number 1) (json_number 10)] seeded).
Proof.
  apply (invest_commute (Request (json_number 1) (json_number 10))
           (Request (json_number 2) (json_number 5)) seeded);
    vm_compute; reflexivity.
Defined.

(** ** What the store refuses *)

(** X14.  A request that passes the guard with an [assetId] that is no
    32-bit integer is refused by the store at the first read: the answer is
    400 with the text of the driver, after a rollback, and no row changes. *)
Theorem invest_refused_asset_id (req : request) (db : database) (a : Q) :
  invalid_input req = false ->
  assetId req = Number a ->
  int4_in a = None ->
  invest req db =
    {| reply := Response 400 (ErrorJson (DriverText InvalidInteger));
       after := db;
       log := [Connect; BEGIN; SELECT_asset; ROLLBACK; Release] |}.
Proof.
  intros Hvalid Ha Hnone.
  rewrite (invest_cases req db Hvalid). cbv zeta.
  rewrite Ha, (bound_Number_None a Hnone). reflexivity.
Qed.

Lemma invest_refused_asset_id_witness :
  invest (Request (Number 2.5) (Number 3)) seeded =
    {| reply := Response 400 (ErrorJson (DriverText InvalidInteger));
       after := seeded;
       log := [Connect; BEGIN; SELECT_asset; ROLLBACK; Release] |}.
Proof.
  apply (invest_refused_asset_id (Request (Number 2.5) (Number 3)) seeded 2.5%Q);
    vm_compute; reflexivity.
Defined.

(** X15.  A request that passes the guard and the three checks of the
    handler with a [tokensToBuy] from which the store reads no 32-bit
    integer is refused by the store at the update of the asset: the answer
    is 400 with the text of the driver, after a rollback, and no row
    changes. *)
Theorem invest_refused_tokens (req : request) (db : database) (k : Z)
    (asset : asset_row) (dash : dashboard_row) :
  invalid_input req = false ->
  bound (assetId req) = Integer k ->
  bound (tokensToBuy req) = Unreadable ->
  assets db !! k = Some asset ->
  flt (of_integer (tokens_available asset)) (ToNumber (tokensToBuy req))
    = false ->
  head (dashboard db) = Some dash ->
  flt (parseFloat (wallet_balance dash))
      (totalCost asset (ToNumber (tokensToBuy req))) = false ->
  invest req db =
    {| reply := Response 400 (ErrorJson (DriverText InvalidInteger));
       after := db;
       log := [Connect; BEGIN; SELECT_asset; SELECT_dashboard; UPDATE_assets;
               ROLLBACK; Release] |}.
Proof.
  intros Hvalid Hk Hn Hasset Htok Hdash Hbal.
  rewrite (invest_cases req db Hvalid). cbv zeta.
  rewrite Hk, Hasset, Htok.
  destruct (dashboard db) as [| dash0 rest]; [discriminate |].
  cbn in Hdash. injection Hdash as ->.
  rewrite Hbal, Hn. reflexivity.
Qed.

Lemma invest_refused_tokens_witness :
  invest (Request (json_number 1) (json_number 1.5)) seeded =
    {| reply := Response 400 (ErrorJson (DriverText InvalidInteger));
       after := seeded;
       log := [Connect; BEGIN; SELECT_asset; SELECT_dashboard; UPDATE_assets;
               ROLLBACK; Release] |}.
Proof.
  apply (invest_refused_tokens (Request (json_number 1) (json_number 1.5))
           seeded 1
           (AssetRow "Skyline Apartments" "New York, NY" 850 5000 1000)
           (DashboardRow 1 1500000 520000 43550));
    vm_compute; reflexivity.
Defined.

(** X16.  When every check of the handler passes and the asset has been
    updated, but one of the three new amounts does not fit its column, the
    answer is 400 with the text of the driver and the rollback takes the
    update of the asset back: no row changes. *)
Theorem invest_overflow_rolled_back (req : request) (db : database) (k d : Z)
    (asset : asset_row) (dash : dashboard_row) :
  invalid_input req = false ->
  bound (assetId req) = Integer k ->
  bound (tokensToBuy req) = Integer d ->
  assets db !! k = Some asset ->
  flt (of_integer (tokens_available asset)) (ToNumber (tokensToBuy req))
    = false ->
  head (dashboard db) = Some dash ->
  flt (parseFloat (wallet_balance dash))
      (totalCost asset (ToNumber (tokensToBuy req))) = false ->
  int4 (tokens_available asset - d) = true ->
  numeric_15_2 (fsub (parseFloat (wallet_balance dash))
                  (totalCost asset (ToNumber (tokensToBuy req)))) = None \/
  numeric_15_2 (fadd (parseFloat (total_investment dash))
                  (totalCost asset (ToNumber (tokensToBuy req)))) = None \/
  numeric_15_2 (fadd (parseFloat (monthly_yield dash))
                  (addedMonthlyYield asset
                     (totalCost asset (ToNumber (tokensToBuy req))))) = None ->
  invest req db =
    {| reply := Response 400 (ErrorJson (DriverText NumericOverflow));
       after := db;
       log := [Connect; BEGIN; SELECT_asset; SELECT_dashboard; UPDATE_assets;
               UPDATE_dashboard; ROLLBACK; Release] |}.
Proof.
  intros Hvalid Hk Hd Hasset Htok Hdash Hbal Hrange Hnone.
  rewrite (invest_cases req db Hvalid). cbv zeta.
  rewrite Hk, Hasset, Htok.
  destruct (dashboard db) as [| dash0 rest]; [discriminate |].
  cbn in Hdash. injection Hdash as ->.
  rewrite Hbal, Hd, Hrange.
  destruct (numeric_15_2 (fsub _ _)) as [w |];
    destruct (numeric_15_2 (fadd (parseFloat (total_investment dash)) _))
      as [t |];
    destruct (numeric_15_2 (fadd (parseFloat (monthly_yield dash)) _))
      as [m |];
    try reflexivity.
  destruct Hnone as [Hnone | [Hnone | Hnone]]; discriminate.
Qed.

Lemma invest_overflow_rolled_back_witness :
  invest (Request (json_number 1) (json_number 10)) ledger_at_limit =
    {| reply := Response 400 (ErrorJson (DriverText NumericOverflow));
       after := ledger_at_limit;
       log := [Connect; BEGIN; SELECT_asset; SELECT_dashboard; UPDATE_assets;
               UPDATE_dashboard; ROLLBACK; Release] |}.
Proof.
  apply (invest_overflow_rolled_back
           (Request (json_number 1) (json_number 10)) ledger_at_limit 1 10
           (AssetRow "Skyline Apartments" "New York, NY" 850 5000 1000)
           (DashboardRow 1 1500000 999999999999900 43550));
    try (vm_compute; reflexivity).
  right; left. vm_compute. reflexivity.
Defined.

(** ** The invariant, one request at a time *)

Lemma parseFloat_in_column (z : Z) :
  0 <= z -> Z.abs z < 10 ^ 15 ->
  exists q : Q, parseFloat (Hundredths z) = Finite q /\ (0 <= q)%Q.
Proof.
  intros Hz Hfit. unfold parseFloat, rounded.
  destruct (overflows (z # 100)) eqn:Hover.
  - exfalso. unfold overflows in Hover. apply Qle_bool_iff in Hover.
    unfold Qle, Qabs, inject_Z in Hover. cbn [Qnum Qden] in Hover.
    assert (10 ^ 15 <= 2 ^ 1024 - 2 ^ 970) as Hbig
      by (vm_compute; discriminate).
    set (big := 2 ^ 1024 - 2 ^ 970) in *. clearbody big.
    assert (10 ^ 15 = 1000000000000000) as E by reflexivity.
    rewrite E in *. lia.
  - eexists. split; [reflexivity |]. apply round64_nonneg.
    unfold Qle. cbn. lia.
Qed.

Lemma totalCost_number (asset : asset_row) (n : Q) :
  price_per_token asset <> DecimalNaN -> (0 < n)%Q ->
  totalCost asset (Finite n) <> NaN.
Proof.
  intros Hprice Hn. unfold totalCost, parseFloat.
  destruct (price_per_token asset) as [| p]; [done |].
  unfold rounded. destruct (overflows (p # 100)); unfold fmul.
  - destruct (Qeq_bool n 0) eqn:Hz; [| discriminate].
    apply Qeq_bool_iff in Hz. rewrite Hz in Hn. discriminate.
  - unfold rounded. destruct (overflows _); discriminate.
Qed.

Lemma numeric_15_2_fits (x : number) (z : Z) :
  numeric_15_2 x = Some (Hundredths z) -> Z.abs z < 10 ^ 15.
Proof.
  unfold numeric_15_2, numeric_2, numeric_in.
  destruct x as [| s | q]; [discriminate .. |].
  destruct (Z.abs _ <? 10 ^ 15) eqn:Hfit; [| discriminate].
  intros [= <-]. apply Z.ltb_lt, Hfit.
Qed.

(** The new balance of a purchase that passed the balance check. *)
Lemma balance_checked (w0 : Q) (cost : number) (w : decimal) :
  (0 <= w0)%Q -> cost <> NaN ->
  flt (Finite w0) cost = false ->
  numeric_15_2 (fsub (Finite w0) cost) = Some w ->
  not_negative w.
Proof.
  intros Hw0 Hcost Hbal Hw. destruct cost as [| s | c]; [done | |].
  - unfold flt in Hbal. apply negb_false_iff in Hbal. subst s.
    discriminate.
  - unfold flt in Hbal. apply Qlt_bool_false in Hbal.
    unfold fsub, fneg, fadd in Hw.
    pose proof (rounded_nonneg (w0 + - c)) as Hr.
    destruct (rounded (w0 + - c)) as [| s | r].
    + exfalso. apply Hr. lra.
    + discriminate.
    + eapply numeric_2_nonneg; [| exact Hw]. apply Hr. lra.
Qed.

Lemma invest_consistent (req : request) (db : database) :
  agreed (tokensToBuy req) ->
  in_columns db -> consistent db ->
  in_columns (after (invest req db)) /\ consistent (after (invest req db)).
Proof.
  intros Hagreed [Hprices Hfits] [Hassets Hwallets].
  destruct (invest_status req db) as [H200 | H400];
    [| rewrite invest_failed_unchanged;
       [by repeat split | rewrite H400; discriminate]].
  destruct (invest_succeeded req db H200)
    as (k & d & asset & dash & w & t & m & Hvalid & Hk & Hd & Hasset & _
        & Hhead & Htok & Hbal & Hw & _ & _ & ->).
  cbn [after].
  destruct (Hagreed d Hd) as (n & Hn & Hnd).
  assert (0 < n)%Q as Hpos.
  { unfold invalid_input in Hvalid.
    apply orb_false_elim in Hvalid as [_ Hle].
    unfold le_zero in Hle. rewrite Hn in Hle. unfold fle in Hle.
    apply Qnot_le_lt. intros Hq. apply Qle_bool_iff in Hq. congruence. }
  rewrite Hn in Htok, Hbal, Hw.
  assert (dash ∈ dashboard db) as Hin.
  { destruct (dashboard db) as [| row rows]; [discriminate |].
    injection Hhead as ->. apply list_elem_of_here. }
  assert (not_negative w /\
          match w with
          | DecimalNaN => True
          | Hundredths z => Z.abs z < 10 ^ 15
          end) as [Hnonneg Hfit].
  { rewrite Forall_forall in Hwallets, Hfits.
    specialize (Hwallets dash Hin). specialize (Hfits dash Hin).
    destruct (wallet_balance dash) as [| z] eqn:Hz; [done |].
    cbn in Hwallets.
    destruct (parseFloat_in_column z Hwallets Hfits) as (w0 & Hw0 & Hw0pos).
    rewrite Hw0 in Hbal, Hw.
    split.
    - eapply balance_checked; [exact Hw0pos | | exact Hbal | exact Hw].
      apply totalCost_number; [exact (Hprices k asset Hasset) | exact Hpos].
    - destruct w as [| z']; [exact I |].
      apply numeric_15_2_fits in Hw. exact Hw. }
  unfold purchased. split; split; cbn [assets dashboard].
  - intros j x Hj. destruct (decide (k = j)) as [<- | Hne].
    + rewrite lookup_alter_eq, Hasset in Hj. cbn in Hj. injection Hj as <-.
      cbn. exact (Hprices k asset Hasset).
    + rewrite lookup_alter_ne in Hj by exact Hne. exact (Hprices j x Hj).
  - rewrite Forall_forall in *. intros row Hrow.
    apply elem_of_rewritten in Hrow as [[Hrow _] | (old & _ & _ & ->)];
      [exact (Hfits row Hrow) | exact Hfit].
  - intros j x Hj. destruct (decide (k = j)) as [<- | Hne].
    + rewrite lookup_alter_eq, Hasset in Hj. cbn in Hj. injection Hj as <-.
      cbn. unfold of_integer in Htok. rewrite flt_Finite in Htok.
      apply Qlt_bool_false in Htok. rewrite Hnd in Htok.
      rewrite <- Zle_Qle in Htok. lia.
    + rewrite lookup_alter_ne in Hj by exact Hne. exact (Hassets j x Hj).
  - rewrite Forall_forall in *. intros row Hrow.
    apply elem_of_rewritten in Hrow as [[Hrow _] | (old & _ & _ & ->)];
      [exact (Hwallets row Hrow) | exact Hnonneg].
Qed.

(** X17.  Served one after the other, requests from whose [tokensToBuy] the
    store reads the integer that the handler converts it to, as it does for
    every number, keep the invariant: from rows where no asset has a
    negative [tokens_available], no dashboard row a negative
    [wallet_balance], every price is a number and every balance has the
    digits of its column, any finite sequence of such requests, answered
    with 200 or not, leads to such rows. *)
Theorem invest_all_consistent (reqs : list request) (db : database) :
  Forall (fun req => agreed (tokensToBuy req)) reqs ->
  in_columns db ->
  consistent db ->
  consistent (invest_all reqs db).
Proof.
  revert db. induction reqs as [| req reqs IH]; intros db Hreqs Hcols Hdb.
  - exact Hdb.
  - apply Forall_cons in Hreqs as [Hreq Hreqs].
    destruct (invest_consistent req db Hreq Hcols Hdb) as [Hcols' Hdb'].
    cbn. apply IH; assumption.
Qed.

Lemma in_columns_seeded : in_columns seeded.
Proof.
  split.
  - unfold seeded. cbn [assets].
    repeat (apply map_Forall_insert_2; [discriminate |]).
    apply map_Forall_empty.
  - repeat constructor.
Qed.

Lemma invest_all_consistent_witness :
  consistent seeded /\
  consistent (invest_all [Request (json_number 1) (json_number 10);
                          Request (json_number 2) (json_number 501);
                          Request (json_number 3) (json_number 1.5);
                          Request (json_number 4)
                            (Value true (Finite 100) (Integer 100))] seeded).
Proof.
  split; [exact consistent_seeded |].
  apply invest_all_consistent;
    [| exact in_columns_seeded | exact consistent_seeded].
  repeat constructor; try (apply agreed_Number).
  intros d [= <-]. exists 100%Q. split; reflexivity.
Defined.

(** X18.  The invariant without that agreement.  A [tokensToBuy] that
    converts to [NaN] passes the guard and both checks, every comparison
    with [NaN] being false; when the store reads an integer [d] from its
    text, the asset loses [d] tokens, whatever it has, the three amounts of
    the dashboard row become [NaN], the transaction is committed and the
    answer is 200. *)
Theorem invest_nan_goes_through (req : request) (db : database) (k d : Z)
    (asset : asset_row) (dash : dashboard_row) :
  falsy (assetId req) = false ->
  falsy (tokensToBuy req) = false ->
  ToNumber (tokensToBuy req) = NaN ->
  bound (assetId req) = Integer k ->
  bound (tokensToBuy req) = Integer d ->
  assets db !! k = Some asset ->
  head (dashboard db) = Some dash ->
  int4 (tokens_available asset - d) = true ->
  invest req db =
    {| reply := Response 200 (InvestJson NaN NaN NaN NaN);
       after := purchased db k d dash DecimalNaN DecimalNaN DecimalNaN;
       log := [Connect; BEGIN; SELECT_asset; SELECT_dashboard; UPDATE_assets;
               UPDATE_dashboard; COMMIT; Release] |}.
Proof.
  intros Ha Hn Hnan Hk Hd Hasset Hdash Hrange.
  assert (invalid_input req = false) as Hvalid.
  { unfold invalid_input, le_zero. rewrite Ha, Hn, Hnan. reflexivity. }
  assert (forall x : number, fmul x NaN = NaN) as Hmul
    by (intros []; reflexivity).
  assert (forall x : number, fadd x NaN = NaN) as Hadd
    by (intros []; reflexivity).
  rewrite (invest_cases req db Hvalid). cbv zeta.
  rewrite Hk, Hasset, Hnan.
  destruct (dashboard db) as [| dash0 rest]; [discriminate |].
  cbn in Hdash. injection Hdash as ->.
  unfold totalCost, addedMonthlyYield, fsub. rewrite Hmul. cbn [fneg].
  change (fdiv (fmul NaN ?x) ?y) with NaN.
  rewrite !Hadd, Hd, Hrange.
  replace (flt (of_integer (tokens_available asset)) NaN) with false
    by (unfold flt, of_integer; reflexivity).
  replace (flt (parseFloat (wallet_balance dash)) NaN) with false
    by (unfold flt; destruct (parseFloat _); reflexivity).
  reflexivity.
Qed.

Lemma invest_nan_goes_through_witness :
  tokens_available <$>
    (assets (after (invest (Request (json_number 1)
                              (Value true NaN (Integer 1001))) seeded)) !! 1)
    = Some (-1) /\
  dashboard (after (invest (Request (json_number 1)
                              (Value true NaN (Integer 1001))) seeded)) =
    [DashboardRow 1 DecimalNaN DecimalNaN DecimalNaN].
Proof.
  rewrite (invest_nan_goes_through
             (Request (json_number 1) (Value true NaN (Integer 1001))) seeded
             1 1001
             (AssetRow "Skyline Apartments" "New York, NY" 850 5000 1000)
             (DashboardRow 1 1500000 520000 43550));
    try (vm_compute; reflexivity).
  split; vm_compute; reflexivity.
Defined.


(** ** Sample requests *)

(** The strings ['1'] and ['10'] are served as the numbers 1 and 10 are. *)
Example invest_digit_strings :
  invest (Request (Value true (Finite 1) (Integer 1))
            (Value true (Finite 10) (Integer 10))) seeded =
  invest (Request (json_number 1) (json_number 10)) seeded /\
  status (reply (invest (Request (Value true (Finite 1) (Integer 1))
                           (Value true (Finite 10) (Integer 10))) seeded))
    = 200.
Proof. split; vm_compute; reflexivity. Qed.

(** [true], ['abc'] and a number beyond the doubles as [tokensToBuy]: the
    first two pass the guard and are refused by the store at the update of
    the asset; the third is more than any stock. *)
Example invest_other_values :
  invest (Request (json_number 1) (Value true (Finite 1) Unreadable)) seeded =
    rolled_back seeded (DriverText InvalidInteger)
      [SELECT_asset; SELECT_dashboard; UPDATE_assets] /\
  invest (Request (json_number 1) (Value true NaN Unreadable)) seeded =
    rolled_back seeded (DriverText InvalidInteger)
      [SELECT_asset; SELECT_dashboard; UPDATE_assets] /\
  json_number (inject_Z (10 ^ 400)) = Value true (Infinity false) Unreadable /\
  invest (Request (json_number 1) (json_number (inject_Z (10 ^ 400)))) seeded =
    rolled_back seeded (Text "Not enough tokens available in this asset")
      [SELECT_asset] /\
  invest (Request (Value false (Finite 0) Null) (json_number 1)) seeded =
    {| reply := bad_request; after := seeded; log := [] |}.
Proof. repeat split; vm_compute; reflexivity. Qed.

(** Three tokens at 0.10 from a wallet of 0.30: the product is the double
    0.30000000000000004 and the balance check refuses, also when the total
    investment stands at the limit of its column. *)
Example invest_three_pennies :
  invest (Request (json_number 1) (json_number 3))
    {| dashboard := [DashboardRow 1 30 0 0]; dashboard_id_seq := 2;
       assets := assets penny_ledger; assets_id_seq := 2 |} =
    rolled_back
      {| dashboard := [DashboardRow 1 30 0 0]; dashboard_id_seq := 2;
         assets := assets penny_ledger; assets_id_seq := 2 |}
      (Text "Insufficient wallet balance to complete transaction")
      [SELECT_asset; SELECT_dashboard] /\
  reply (invest (Request (json_number 1) (json_number 3))
           {| dashboard := [DashboardRow 1 30 999999999999999 0];
              dashboard_id_seq := 2;
              assets := assets penny_ledger; assets_id_seq := 2 |}) =
    Response 400
      (ErrorJson (Text "Insufficient wallet balance to complete transaction")).
Proof. split; vm_compute; reflexivity. Qed.

(** 8.75 tokens at 0.04 from a wallet of 0.35: the product is the double
    0.35000000000000003 and the balance check refuses before the store sees
    the fraction. *)
Example invest_fraction_unaffordable :
  reply (invest (Request (json_number 1) (json_number 8.75))
           {| dashboard := [DashboardRow 1 35 0 0]; dashboard_id_seq := 2;
              assets :=
                <[1 := AssetRow "Corner Kiosk" "Austin, TX" 500 4 1000]> ∅;
              assets_id_seq := 2 |}) =
    Response 400
      (ErrorJson (Text "Insufficient wallet balance to complete transaction")).
Proof. vm_compute. reflexivity. Qed.

(** With two dashboard rows, the row that was read and updated comes second
    afterwards, and the next request reads the other one. *)
Example invest_two_dashboard_rows :
  dashboard
    (after (invest (Request (json_number 1) (json_number 1))
              {| dashboard := [DashboardRow 1 10000 0 0; DashboardRow 2 500 0 0];
                 dashboard_id_seq := 3;
                 assets := assets penny_ledger; assets_id_seq := 2 |})) =
    [DashboardRow 2 500 0 0; DashboardRow 1 9990 10 0] /\
  get_dashboard
    (after (invest (Request (json_number 1) (json_number 1))
              {| dashboard := [DashboardRow 1 10000 0 0; DashboardRow 2 500 0 0];
                 dashboard_id_seq := 3;
                 assets := assets penny_ledger; assets_id_seq := 2 |})) =
    (200, DashboardJson (DashboardRow 2 500 0 0)).
Proof. split; vm_compute; reflexivity. Qed.

(** The first purchase of the specification: ten tokens of asset 1. *)
Example first_purchase :
  invest (Request (json_number 1) (json_number 10)) seeded =
    {| reply :=
         Response 200
           (InvestJson (Finite 500) (Finite 14500) (Finite 5700)
              (Finite (literal 439.0416666666667)));
       after := purchased seeded 1 10 (DashboardRow 1 1500000 520000 43550)
                  1450000 570000 43904;
       log := [Connect; BEGIN; SELECT_asset; SELECT_dashboard; UPDATE_assets;
               UPDATE_dashboard; COMMIT; Release] |}.
Proof. vm_compute. reflexivity. Qed.
